(** * loc-sal-tools: the audit loop and the HTML generator

    A shallow embedding of the Python script (its imports, the
    [Constants/Globals] part and the [Initialization/Setup] part) and the
    properties of its specification.

    Conventions of the embedding.
    - A Python [str] is a [string]; a character is a code point below 256,
      where [\d] is exactly [0-9] and the white space of [str.strip] and
      [int] is the set [py_isspace] below.
    - A Python [int] is a [Z].
    - A pandas cell is text, an integer or missing ([NaN]), another
      float is left out; a row carries the columns the code indexes with
      [row[...]], under their standard names, and the one column it reads
      with [row.get].
    - An exception is a value of [exn]; code that can raise returns
      [result].  [print] and [input] are recorded in a list of events.
    - [int] is read without the limit CPython puts on the number of
      digits ([int_max_str_digits]); a theorem that depends on the limit
      carries it as a hypothesis.
    - What belongs to pathlib and to pandas and not to the script is a
      parameter of the development: the path [Path(a) / b], the stem
      [Path(s).stem], whether the column takes the value of
      [df.at[idx, "PDF Start"] = v], and the text of the exception of
      [pd.read_excel].
    - A file is known by the text of its path, and a file that is opened
      for writing is written: links between paths and the failures of
      the file system (a directory that is missing, a disk that is full)
      are left out. *)

From Stdlib Require Import ZArith Ascii String List Lia Bool.
From Stdlib Require Import DecimalString DecimalZ.
From stdpp Require Import base option list strings gmap.

Open Scope string_scope.
Open Scope Z_scope.

(** ** Python primitives *)

Module Py.

(** Exceptions the script can raise. *)
Inductive exn : Type :=
| KeyError
| ValueError
| AttributeError
| TypeError
| EOFError
| NameError
| FileNotFoundError
| EmptyDataError
| AssertionError
| SystemExit.

Inductive result (A : Type) : Type :=
| Ok (a : A)
| Raise (e : exn).
Arguments Ok {A} a.
Arguments Raise {A} e.

Definition bind {A B} (r : result A) (k : A -> result B) : result B :=
  match r with
  | Ok a => k a
  | Raise e => Raise e
  end.

(** [c in "0123456789"], the class [\d] on code points below 256. *)
Definition is_digit (c : ascii) : bool :=
  let n := nat_of_ascii c in (48 <=? n)%nat && (n <=? 57)%nat.

(** White space of [str.strip()]: tab, line feed, vertical tab, form
    feed, carriage return, the separators 0x1c-0x1f, space, 0x85 and the
    no-break space 0xa0. *)
Definition py_isspace (c : ascii) : bool :=
  let n := nat_of_ascii c in
  ((9 <=? n)%nat && (n <=? 13)%nat)
  || ((28 <=? n)%nat && (n <=? 32)%nat)
  || (n =? 133)%nat || (n =? 160)%nat.

(** White space that [int()] skips around the digits: the same without
    the separators 0x1c-0x1f, which the parser of integers takes for
    part of the literal. *)
Definition int_isspace (c : ascii) : bool :=
  let n := nat_of_ascii c in
  ((9 <=? n)%nat && (n <=? 13)%nat)
  || (n =? 32)%nat || (n =? 133)%nat || (n =? 160)%nat.

(** [str.lower] on one character: [A-Z], and the Latin-1 capitals
    0xc0-0xde except the multiplication sign 0xd7. *)
Definition lower_char (c : ascii) : ascii :=
  let n := nat_of_ascii c in
  if ((65 <=? n)%nat && (n <=? 90)%nat)
     || ((192 <=? n)%nat && (n <=? 222)%nat && negb (n =? 215)%nat)
  then ascii_of_nat (n + 32) else c.

Fixpoint lower (s : string) : string :=
  match s with
  | EmptyString => EmptyString
  | String c s' => String (lower_char c) (lower s')
  end.

(** Drops the white space at the start, [space] telling what it is. *)
Fixpoint lstrip (space : ascii -> bool) (s : string) : string :=
  match s with
  | EmptyString => EmptyString
  | String c s' => if space c then lstrip space s' else s
  end.

(** Drops the white space at the end: a character is kept when it is not
    white space or when something is kept after it. *)
Fixpoint rstrip (space : ascii -> bool) (s : string) : string :=
  match s with
  | EmptyString => EmptyString
  | String c s' =>
      match rstrip space s' with
      | EmptyString => if space c then EmptyString else String c EmptyString
      | r => String c r
      end
  end.

(** [s.strip()] *)
Definition strip (s : string) : string := rstrip py_isspace (lstrip py_isspace s).

(** [str(z)] for an [int]. *)
Definition str_of_int (z : Z) : string := NilZero.string_of_int (Z.to_int z).

(** The digits of an [int] literal given to [int()]: decimal digits with
    single underscores between them.  [prev] tells whether the character
    before was a digit. *)
Fixpoint int_digits (prev : bool) (s : string) : option string :=
  match s with
  | EmptyString => if prev then Some EmptyString else None
  | String c s' =>
      if is_digit c then
        match int_digits true s' with
        | Some d => Some (String c d)
        | None => None
        end
      else if Ascii.eqb c "_" then
        if prev then int_digits false s' else None
      else None
  end.

Definition int_unsigned (s : string) : option Z :=
  match int_digits false s with
  | Some d =>
      match NilEmpty.uint_of_string d with
      | Some u => Some (Z.of_uint u)
      | None => None
      end
  | None => None
  end.

(** The number of digits from which the interpreter, as it is set up by
    default, refuses to convert a text with [ValueError]. *)
Definition int_max_str_digits : nat := 4300.

(** [int(s)] for a [str]: white space skipped at both ends, an optional
    sign, then the digits; [ValueError] otherwise.  This is the
    conversion without the bound [int_max_str_digits]: what is proved of
    a text that comes from the data or from the user is proved of texts
    within the bound. *)
Definition int_of_str (s : string) : result Z :=
  let r :=
    match rstrip int_isspace (lstrip int_isspace s) with
    | String "+" t => int_unsigned t
    | String "-" t => option_map Z.opp (int_unsigned t)
    | t => int_unsigned t
    end in
  match r with
  | Some z => Ok z
  | None => Raise ValueError
  end.

(** The longest prefix of digits. *)
Fixpoint take_digits (s : string) : string :=
  match s with
  | EmptyString => EmptyString
  | String c s' => if is_digit c then String c (take_digits s') else EmptyString
  end.

(** [re.search(r"\d+", s)]: the leftmost run of digits, as long as it
    goes; [None] when [s] has no digit.  The [Some] carries what
    [.group()] returns. *)
Fixpoint re_search_digits (s : string) : option string :=
  match s with
  | EmptyString => None
  | String c s' => if is_digit c then Some (take_digits s) else re_search_digits s'
  end.

End Py.
Export Py.

(** ** Constants/Globals *)

(** The dictionary [numeral_map]; a Python dictionary is iterated in the
    order of insertion, so the keys come from 1000 down to 1. *)
Definition numeral_map : list (Z * string) :=
  [ (1000, "M"); (900, "CM"); (500, "D"); (400, "CD"); (100, "C"); (90, "XC");
    (50, "L"); (40, "XL"); (10, "X"); (9, "IX"); (5, "V"); (4, "IV"); (1, "I") ].

(** The inner loop [while num >= value: roman_numeral += sym; num -= value].
    Every key is at least 1, so the loop body runs at most [num] times:
    [fuel] counts the iterations still allowed, and [while_ge_unfold] below
    shows that the loop started by [arabic_to_roman] never uses them up. *)
Fixpoint while_ge (fuel : nat) (value : Z) (sym : string) (num : Z) (roman_numeral : string)
  : Z * string :=
  match fuel with
  | O => (num, roman_numeral)
  | S fuel' =>
      if num >=? value
      then while_ge fuel' value sym (num - value) (roman_numeral ++ sym)
      else (num, roman_numeral)
  end.

(** The loop [for value in numeral_map: ...] over the keys still to visit. *)
Fixpoint for_values (keys : list (Z * string)) (num : Z) (roman_numeral : string) : string :=
  match keys with
  | [] => roman_numeral
  | (value, sym) :: keys' =>
      let '(num', roman_numeral') :=
        while_ge (Z.to_nat num) value sym num roman_numeral in
      for_values keys' num' roman_numeral'
  end.

Definition arabic_to_roman (num : Z) : string := for_values numeral_map num "".

(** The double quote and the line feed of the templates. *)
Definition dq : string := String (ascii_of_nat 34) EmptyString.
Definition nl : string := String (ascii_of_nat 10) EmptyString.

(** The six formatters share one signature; [html_for_act_resolution_appendix]
    is the only one that can raise. *)
Definition generator : Type :=
  string -> string -> string -> string -> string -> string -> result string.

Definition html_for_law
  (pdf_link statute_type title date public_private number_chapter : string) : result string :=
  Ok (nl ++
  "                    <tr>" ++ nl ++
  "                        <td><a target=" ++ dq ++ "_blank" ++ dq ++ " href=" ++ dq ++ pdf_link ++ dq ++ ">" ++ number_chapter ++ "</a></td>" ++ nl ++
  "                        <td>" ++ public_private ++ "</td>" ++ nl ++
  "                        <td>" ++ title ++ "</td>" ++ nl ++
  "                        <td>" ++ date ++ "</td>" ++ nl ++
  "                    </tr>").

(** [digit_match] is [None] when [number_chapter] has no digit, and
    [None.group()] raises [AttributeError]. *)
Definition html_for_act_resolution_appendix
  (pdf_link statute_type title date public_private number_chapter : string) : result string :=
  let digit_match := re_search_digits number_chapter in
  bind (match digit_match with
        | Some g => Ok g
        | None => Raise AttributeError
        end) (fun matched_digits =>
  bind (int_of_str matched_digits) (fun number =>
  let title := arabic_to_roman number ++ ". " ++ title in
  Ok (nl ++
  "                    <tr>" ++ nl ++
  "                        <td><a target=" ++ dq ++ "_blank" ++ dq ++ " href=" ++ dq ++ pdf_link ++ dq ++ ">" ++ statute_type ++ "</a></td>" ++ nl ++
  "                        <td>" ++ public_private ++ "</td>" ++ nl ++
  "                        <td>" ++ title ++ "</td>" ++ nl ++
  "                        <td>" ++ date ++ "</td>" ++ nl ++
  "                    </tr>"))).

Definition generic_html_generator
  (pdf_link statute_type title date public_private number_chapter : string) : result string :=
  Ok (nl ++
  "                    <tr>" ++ nl ++
  "                        <td><a target=" ++ dq ++ "_blank" ++ dq ++ " href=" ++ dq ++ pdf_link ++ dq ++ ">" ++ statute_type ++ "</a></td>" ++ nl ++
  "                        <td></td>" ++ nl ++
  "                        <td>" ++ title ++ "</td>" ++ nl ++
  "                        <td>" ++ date ++ "</td>" ++ nl ++
  "                    </tr>").

Definition html_for_articles_ordinance
  (pdf_link statute_type title date public_private number_chapter : string) : result string :=
  Ok (nl ++
  "                    <tr>" ++ nl ++
  "                        <td><a target=" ++ dq ++ "_blank" ++ dq ++ " href=" ++ dq ++ pdf_link ++ dq ++ ">" ++ statute_type ++ "</a></td>" ++ nl ++
  "                        <td></td>" ++ nl ++
  "                        <td>" ++ title ++ "</td>" ++ nl ++
  "                        <td></td>" ++ nl ++
  "                    </tr>").

Definition html_for_special_pages
  (pdf_link statute_type title date public_private number_chapter : string) : result string :=
  Ok (nl ++
  "                    <tr>" ++ nl ++
  "                        <td>&nbsp;</td>" ++ nl ++
  "                        <td>&nbsp;</td>" ++ nl ++
  "                        <td>&nbsp;</td>" ++ nl ++
  "                        <td>&nbsp;</td>" ++ nl ++
  "                    </tr>" ++ nl ++
  "    " ++ nl ++
  "                    <tr>" ++ nl ++
  "                        <td><a target=" ++ dq ++ "_blank" ++ dq ++ " href=" ++ dq ++ pdf_link ++ dq ++ ">" ++ statute_type ++ "</a></td>" ++ nl ++
  "                        <td></td>" ++ nl ++
  "                        <td>" ++ title ++ "</td>" ++ nl ++
  "                        <td></td>" ++ nl ++
  "                    </tr>").

Definition html_with_empty_cells
  (pdf_link statute_type title date public_private number_chapter : string) : result string :=
  Ok (nl ++
  "                    <tr>" ++ nl ++
  "                        <td type=" ++ dq ++ "empty" ++ dq ++ "><a target=" ++ dq ++ "_blank" ++ dq ++ " href=" ++ dq ++ pdf_link ++ dq ++ ">" ++ statute_type ++ "</a></td>" ++ nl ++
  "                        <td></td>" ++ nl ++
  "                        <td></td>" ++ nl ++
  "                        <td></td>" ++ nl ++
  "                    </tr>").

(** The three tables loaded from [maps/*.yaml]; the files are not part of
    the sources, so the tables are parameters of everything below. *)
Record Maps : Type := {
  header_mappings : gmap string string;
  statute_mappings : gmap string string;
  html_generator_mappings : gmap string string
}.

(** [header_mappings.get(header, header)] *)
Definition map_headers (m : Maps) (header : string) : string :=
  default header (header_mappings m !! header).

(** [statute_mappings.get(statute_type, statute_type)] *)
Definition map_statute_type (m : Maps) (statute_type : string) : string :=
  default statute_type (statute_mappings m !! statute_type).

(** [html_generator_mappings.get(statute_type, None)] *)
Definition map_html_generators (m : Maps) (statute_type : string) : option string :=
  html_generator_mappings m !! statute_type.

(** ** Initialization/Setup: the data *)

(** A cell of the data frame. *)
Inductive Cell : Type :=
| CStr (s : string)
| CInt (z : Z)
| CNaN.

(** [str(cell)], also what an f-string puts for [{cell}]. *)
Definition str_of_cell (c : Cell) : string :=
  match c with
  | CStr s => s
  | CInt z => str_of_int z
  | CNaN => "nan"
  end.

(** [pd.isna(x)]: true for the missing value, false for a [str] or an [int]. *)
Definition pd_isna (c : Cell) : bool :=
  match c with
  | CNaN => true
  | _ => false
  end.

(** A row of the data frame, after the headers are standardized.  The
    columns read with [row["..."]] are there; [Public/Private] is read with
    [row.get("Public/Private", "")] and may be absent. *)
Record Row : Type := {
  Session : Cell;
  Type_ : Cell;
  Public_Private : option Cell;
  Title : Cell;
  Date : Cell;
  Number_Chapter : Cell;
  PDF_Start : Cell
}.

(** [df.at[idx, "PDF Start"] = v] on the row. *)
Definition set_PDF_Start (v : Cell) (r : Row) : Row :=
  {| Session := Session r; Type_ := Type_ r; Public_Private := Public_Private r;
     Title := Title r; Date := Date r; Number_Chapter := Number_Chapter r;
     PDF_Start := v |}.

(** The settings of [user-config.yaml], the values as text. *)
Record Config : Type := {
  CONGRESS : string;
  CONGRESS_START_DATE : string;
  CONGRESS_END_DATE : string;
  PUBLIC_PDF_URL : string;
  PRIVATE_PDF_URL : string;
  EXCEL_FILE : string;
  START_ROW : Z;
  SKIP_ROWS : option (list Z);
  OUTPUT_FILE : string;
  EXCEL_DIR : string;
  HTML_DIR : string;
  TMP_DIR : string;
  IN_PROCESS_PREFIX : string;
  AUDITED_PREFIX : string
}.

(** A file is a text file or a workbook; a workbook holds the data rows
    below its header line. *)
Inductive file : Type :=
| FText (content : string)
| FSheet (rows : list Row).

(** What the terminal shows. *)
Inductive event : Type :=
| Cleared
| Prompted (prompt : string)
| Printed (text : string).

(** The mutable things a run works on: the data frame, the files and the
    terminal. *)
Record St : Type := {
  df : list Row;
  files : gmap string file;
  console : list event
}.

Definition log (st : St) (es : list event) : St :=
  {| df := df st; files := files st; console := console st ++ es |}.

Definition write_file (st : St) (path : string) (f : file) : St :=
  {| df := df st; files := <[path := f]> (files st); console := console st |}.

Definition set_df (st : St) (d : list Row) : St :=
  {| df := d; files := files st; console := console st |}.

(** [name.rfind('.')]: the text before and the text after the last dot. *)
Fixpoint rsplit_dot (s : string) : option (string * string) :=
  match s with
  | EmptyString => None
  | String c s' =>
      match rsplit_dot s' with
      | Some (a, b) => Some (String c a, b)
      | None => if Ascii.eqb c "." then Some (EmptyString, s') else None
      end
  end.

Section Run.

(** [str(Path(a) / b)]: the path that pathlib makes of the directory [a]
    and the name [b]. *)
Variable path_join : string -> string -> string.

(** [Path(s).stem]: the last component of the path without its last
    suffix. *)
Variable path_stem : string -> string.

(** [df.at[idx, "PDF Start"] = v] on the data frame [d], for the [int]
    [v]: [Ok] when the column takes the value, and then the cell of row
    [idx] holds [v] and no other cell is touched; the exception when it
    does not (by the type of the column and the size of [v], pandas
    raises a [ValueError], or another exception). *)
Variable at_set : list Row -> nat -> Z -> result unit.

(** [str(e)] for the exception [e] that [pd.read_excel] raised on the
    path. *)
Variable read_excel_message : string -> string.

(** The path both [get_last_audited_row] and [audit_process] build. *)
Definition checkpoint_path (config : Config) (file_name : string) : string :=
  path_join (TMP_DIR config) ("audit-checkpoint-" ++ path_stem file_name ++ ".txt").

(** ** Initialization/Setup: the audit *)

Definition get_last_audited_row
  (config : Config) (fs : gmap string file) (file_name : string) : result Z :=
  let checkpoint_file_path := checkpoint_path config file_name in
  match fs !! checkpoint_file_path with
  | Some (FText text) =>
      let content := strip text in
      if String.eqb content "" then Ok 0 else int_of_str content
  | Some (FSheet _) => Raise ValueError
  | None => Ok 0
  end.

Definition confirm_prompt (row : Row) : string :=
  nl ++ "Is the PDF Start for:" ++ nl ++ nl ++ str_of_cell (Session row) ++ nl ++ nl
  ++ str_of_cell (Number_Chapter row) ++ " - " ++ str_of_cell (Title row) ++ nl ++ nl
  ++ "PDF Page: " ++ str_of_cell (PDF_Start row) ++ nl ++ nl
  ++ "Correct? Yes (Y) or No (N) - (Enter 'exit' to stop):".

Definition correction_prompt (row : Row) : string :=
  nl ++ "What is the correct PDF Start for " ++ str_of_cell (Title row) ++ ", "
  ++ str_of_cell (Session row) ++ "-" ++ str_of_cell (Number_Chapter row)
  ++ "? (Enter 'exit' to stop) ".

(** [len(config.get("SKIP_ROWS", []))] *)
Definition len_skip_rows (config : Config) : Z :=
  Z.of_nat (length (default [] (SKIP_ROWS config))).

Definition paused_message (config : Config) (idx : nat) (st : St) : string :=
  nl ++ "Audit process paused at row "
  ++ str_of_int (Z.of_nat idx + 2 + len_skip_rows config)
  ++ " of " ++ str_of_int (Z.of_nat (length (df st))) ++ ".".

(** The two places that stop the audit: print, write [str(idx)] to the
    checkpoint file, [return False]. *)
Definition pause (config : Config) (idx : nat) (st : St) : St :=
  write_file (log st [Printed (paused_message config idx st)])
    (checkpoint_path config (EXCEL_FILE config))
    (FText (str_of_int (Z.of_nat idx))).

(** How the [while True] loop of one row ends. *)
Inductive loop_exit : Type :=
| Break
| Return (b : bool).

(** The [while True] loop for the row [idx].  [input] takes the next line
    of [stdin] and raises [EOFError] when there is none, so every turn of
    the loop uses up a line.  The [try] holds [int] and the store into the
    data frame: a [ValueError] of either one is caught and the row is
    asked again, another exception leaves the loop. *)
Fixpoint while_True (config : Config) (idx : nat) (row : Row)
  (stdin : list string) (st : St) {struct stdin}
  : result loop_exit * list string * St :=
  let st := log st [Cleared; Prompted (confirm_prompt row)] in
  match stdin with
  | [] => (Raise EOFError, [], st)
  | user_input :: stdin1 =>
      if String.eqb (lower user_input) "exit" then
        (Ok (Return false), stdin1, pause config idx st)
      else if String.eqb (lower user_input) "y" then
        (Ok Break, stdin1, st)
      else if String.eqb (lower user_input) "n" then
        let st := log st [Prompted (correction_prompt row)] in
        match stdin1 with
        | [] => (Raise EOFError, [], st)
        | correct_pdf_start :: stdin2 =>
            if String.eqb (lower correct_pdf_start) "exit" then
              (Ok (Return false), stdin2, pause config idx st)
            else
              match int_of_str correct_pdf_start with
              | Ok v =>
                  match at_set (df st) idx v with
                  | Ok _ =>
                      (Ok Break, stdin2,
                       set_df st (alter (set_PDF_Start (CInt v)) idx (df st)))
                  | Raise ValueError =>
                      while_True config idx row stdin2
                        (log st [Printed "Invalid input. Please enter a valid PDF Start value (an integer)."])
                  | Raise e => (Raise e, stdin2, st)
                  end
              | Raise ValueError =>
                  while_True config idx row stdin2
                    (log st [Printed "Invalid input. Please enter a valid PDF Start value (an integer)."])
              | Raise e => (Raise e, stdin2, st)
              end
        end
      else
        while_True config idx row stdin1
          (log st [Printed "Invalid input. Please enter 'Y', 'N', or 'exit'."])
  end.

(** [for idx, row in df.iterrows(): ...] over the rows still to come;
    [return True] after the last one. *)
Fixpoint audit_rows (config : Config) (last_audited_row : Z)
  (rows : list (nat * Row)) (stdin : list string) (st : St)
  : result bool * list string * St :=
  match rows with
  | [] => (Ok true, stdin, st)
  | (idx, row) :: rows' =>
      if Z.of_nat idx <? last_audited_row then
        audit_rows config last_audited_row rows' stdin st
      else
        match while_True config idx row stdin st with
        | (Ok Break, stdin', st') => audit_rows config last_audited_row rows' stdin' st'
        | (Ok (Return b), stdin', st') => (Ok b, stdin', st')
        | (Raise e, stdin', st') => (Raise e, stdin', st')
        end
  end.

(** [df.iterrows()]: the rows with their index, as they are when the loop
    starts; [iterrows_from i d] numbers them from [i]. *)
Fixpoint iterrows_from (i : nat) (d : list Row) : list (nat * Row) :=
  match d with
  | [] => []
  | row :: d' => (i, row) :: iterrows_from (S i) d'
  end.

Definition iterrows (d : list Row) : list (nat * Row) := iterrows_from 0 d.

Definition audit_process (config : Config) (last_audited_row : Z)
  (stdin : list string) (st : St) : result bool * list string * St :=
  audit_rows config last_audited_row (iterrows (df st)) stdin st.

(** ** Initialization/Setup: the HTML *)

Definition generate_pdf_link
  (config : Config) (statute_type public_private pdf_start : string) : string :=
  if String.eqb statute_type "Law" && String.eqb public_private "Private"
  then PRIVATE_PDF_URL config ++ "#page=" ++ pdf_start
  else PUBLIC_PDF_URL config ++ "#page=" ++ pdf_start.

(** What a name of the module can be bound to: one of the six formatters,
    another function or class, or an object that cannot be called (a
    module, a dictionary, a path, a string) with its truth value. *)
Inductive py_global : Type :=
| GGenerator (g : generator)
| GCallable
| GObject (truth : bool).

(** [bool(d)] for a dictionary. *)
Definition dict_truth (d : gmap string string) : bool :=
  match map_to_list d with
  | [] => false
  | _ => true
  end.

(** [bool(s)] for a [str]. *)
Definition str_truth (s : string) : bool := negb (String.eqb s "").

(** [globals()]: the names the interpreter binds in a module that is run
    as a script (true values: [__name__], the docstring [__doc__],
    [__loader__], [__builtins__], [__file__]; false values: [__package__],
    [__spec__] and [__cached__], which are [None], and [__annotations__],
    which is the empty dictionary), the names the script binds at module level
    (imports, functions, the loaded configuration and tables) and the
    names [main] declares [global] and assigns before it generates the
    HTML. *)
Definition globals (config : Config) (m : Maps) : gmap string py_global :=
  list_to_map
    [ ("__name__", GObject true); ("__doc__", GObject true);
      ("__package__", GObject false); ("__loader__", GObject true);
      ("__spec__", GObject false); ("__annotations__", GObject false);
      ("__builtins__", GObject true); ("__file__", GObject true);
      ("__cached__", GObject false);
      ("os", GObject true); ("re", GObject true); ("sys", GObject true);
      ("Path", GCallable); ("pd", GObject true); ("yaml", GObject true);
      ("clear_screen", GCallable); ("load_yaml", GCallable);
      ("load_config", GCallable); ("map_headers", GCallable);
      ("map_statute_type", GCallable); ("map_html_generators", GCallable);
      ("arabic_to_roman", GCallable);
      ("html_for_law", GGenerator html_for_law);
      ("html_for_act_resolution_appendix", GGenerator html_for_act_resolution_appendix);
      ("generic_html_generator", GGenerator generic_html_generator);
      ("html_for_articles_ordinance", GGenerator html_for_articles_ordinance);
      ("html_for_special_pages", GGenerator html_for_special_pages);
      ("html_with_empty_cells", GGenerator html_with_empty_cells);
      ("user_config", GObject true);
      ("header_mappings", GObject (dict_truth (header_mappings m)));
      ("statute_mappings", GObject (dict_truth (statute_mappings m)));
      ("html_generator_mappings", GObject (dict_truth (html_generator_mappings m)));
      ("load_excel_file", GCallable); ("get_last_audited_row", GCallable);
      ("audit_process", GCallable); ("generate_pdf_link", GCallable);
      ("generate_html", GCallable); ("main", GCallable);
      ("EXCEL_DIR", GObject true); ("HTML_DIR", GObject true);
      ("TMP_DIR", GObject true);
      ("IN_PROCESS_PREFIX", GObject (str_truth (IN_PROCESS_PREFIX config)));
      ("AUDITED_PREFIX", GObject (str_truth (AUDITED_PREFIX config))) ].

(** [if generator:] *)
Definition truth (g : option py_global) : bool :=
  match g with
  | None => false
  | Some (GObject b) => b
  | Some _ => true
  end.

(** [generator(a, b, c, d, e, f)]: a formatter runs; another function does
    not take six arguments, a class does not return a [str] to append and
    another object cannot be called, all three a [TypeError]. *)
Definition call (g : py_global) : generator :=
  fun pdf_link statute_type title date public_private number_chapter =>
    match g with
    | GGenerator f => f pdf_link statute_type title date public_private number_chapter
    | GCallable => Raise TypeError
    | GObject _ => Raise TypeError
    end.

(** The variables of the loop of [generate_html], and what it printed. *)
Record gen_state : Type := {
  html_content : string;
  previous_session : string;
  printed : list string
}.

Definition close_table : string :=
  nl ++ "                </tbody>" ++ nl ++ "            </table>".

Definition open_table (session : string) : string :=
  nl ++ "        <h4>" ++ session ++ "</h4>" ++ nl
  ++ "            <table class=" ++ dq ++ "table-bordered table-padded table-full-width" ++ dq ++ ">" ++ nl
  ++ "                <tbody>".

(** The [if] on the session: its effect on [html_content] and
    [previous_session].  [session] is a [str] here, so [pd.isna(session)]
    is [pd_isna (CStr session)]. *)
Definition session_step (session : string) (st : gen_state) : gen_state :=
  if negb (pd_isna (CStr session)) && negb (String.eqb session (previous_session st)) then
    let html1 :=
      if str_truth (previous_session st)
      then html_content st ++ close_table else html_content st in
    let html2 :=
      if str_truth session then html1 ++ open_table session else html1 in
    {| html_content := html2; previous_session := session; printed := printed st |}
  else st.

Definition no_generator_message (statute_type : string) : string :=
  "No generator found for statute_type: '" ++ statute_type ++ "'".

(** The body of [for _, row in df.iterrows()].  The [try] holds the two
    conversions [str(row["Session"])] and [str(row["Type"])], which do
    not raise on a cell; its [except ValueError] formats a message with
    [excel_path], a name that is bound nowhere in [generate_html], before
    it reaches [continue]. *)
Definition generate_html_row
  (config : Config) (m : Maps) (st : gen_state) (row : Row) : result gen_state :=
  match Ok (str_of_cell (Session row), str_of_cell (Type_ row)) with
  | Raise ValueError => Raise NameError
  | Raise e => Raise e
  | Ok _ =>
      let session := str_of_cell (Session row) in
      let statute_type := strip (str_of_cell (Type_ row)) in
      let public_private :=
        match Public_Private row with
        | Some c => str_of_cell c
        | None => ""
        end in
      let title := if pd_isna (Title row) then "" else str_of_cell (Title row) in
      let date := str_of_cell (Date row) in
      let number_chapter := str_of_cell (Number_Chapter row) in
      let pdf_start := str_of_cell (PDF_Start row) in
      let st := session_step session st in
      let pdf_link := generate_pdf_link config statute_type public_private pdf_start in
      let generator_function_name := map_html_generators m statute_type in
      let generator :=
        match generator_function_name with
        | Some name => globals config m !! name
        | None => None
        end in
      match generator with
      | Some g =>
          if truth generator then
            bind (call g pdf_link statute_type title date public_private number_chapter)
              (fun html_segment =>
                 Ok {| html_content := html_content st ++ html_segment;
                       previous_session := previous_session st;
                       printed := printed st |})
          else
            bind (html_with_empty_cells pdf_link statute_type title date public_private number_chapter)
              (fun html_segment =>
                 Ok {| html_content := html_content st ++ html_segment;
                       previous_session := previous_session st;
                       printed := printed st ++ [no_generator_message statute_type] |})
      | None =>
          bind (html_with_empty_cells pdf_link statute_type title date public_private number_chapter)
            (fun html_segment =>
               Ok {| html_content := html_content st ++ html_segment;
                     previous_session := previous_session st;
                     printed := printed st ++ [no_generator_message statute_type] |})
      end
  end.

Fixpoint generate_html_rows
  (config : Config) (m : Maps) (st : gen_state) (rows : list Row) : result gen_state :=
  match rows with
  | [] => Ok st
  | row :: rows' =>
      bind (generate_html_row config m st row)
        (fun st' => generate_html_rows config m st' rows')
  end.

Definition html_header (config : Config) : string :=
  nl ++ "    <!-- Begin HTML-->" ++ nl
  ++ "    <a name=" ++ dq ++ CONGRESS_START_DATE config ++ dq ++ " id=" ++ dq ++ CONGRESS_END_DATE config ++ dq ++ "></a>" ++ nl
  ++ "    <h3 class=" ++ dq ++ "js-expandmore" ++ dq ++ " data-hideshow-prefix-class=" ++ dq ++ "light" ++ dq ++ ">"
  ++ CONGRESS config ++ " (" ++ CONGRESS_START_DATE config ++ "-" ++ CONGRESS_END_DATE config ++ ")</h3>" ++ nl
  ++ "    <div class=" ++ dq ++ "js-to_expand" ++ dq ++ ">".

Definition initial_gen_state (config : Config) : gen_state :=
  {| html_content := html_header config; previous_session := ""; printed := [] |}.

(** The state after the loop and the closing of the last table; the
    function returns its [html_content]. *)
Definition generate_html_state
  (rows : list Row) (config : Config) (m : Maps) : result gen_state :=
  bind (generate_html_rows config m (initial_gen_state config) rows) (fun st =>
    Ok (if str_truth (previous_session st)
        then {| html_content := html_content st ++ "</tbody></table>";
                previous_session := previous_session st; printed := printed st |}
        else st)).

Definition generate_html (rows : list Row) (config : Config) (m : Maps) : result string :=
  bind (generate_html_state rows config m) (fun st => Ok (html_content st)).

(** ** Initialization/Setup: the orchestration *)

(** [pd.read_excel(path)] *)
Definition read_excel (fs : gmap string file) (path : string) : result (list Row) :=
  match fs !! path with
  | Some (FSheet rows) => Ok rows
  | Some (FText _) => Raise ValueError
  | None => Raise FileNotFoundError
  end.

(** [data_frame["Type"].apply(map_statute_type)] on one row: a text is
    looked up, another cell is no key of the table. *)
Definition map_row_type (m : Maps) (r : Row) : Row :=
  {| Session := Session r;
     Type_ := match Type_ r with
              | CStr s => CStr (map_statute_type m s)
              | c => c
              end;
     Public_Private := Public_Private r; Title := Title r; Date := Date r;
     Number_Chapter := Number_Chapter r; PDF_Start := PDF_Start r |}.

(** [load_excel_file]: [skiprows = range(1, START_ROW - 1)] drops the
    first [START_ROW - 2] data rows; any failure to read prints and
    leaves with [exit()].  A workbook of the model holds its rows under
    the standard names of the columns, as they are after
    [data_frame.columns = [map_headers(col) ...]]. *)
Definition load_excel_file (config : Config) (m : Maps) (file_name : string) (st : St)
  : result (list Row) * St :=
  let excel_path := path_join (EXCEL_DIR config) file_name in
  match read_excel (files st) excel_path with
  | Ok rows =>
      (Ok (map (map_row_type m) (drop (Z.to_nat (START_ROW config - 2)) rows)), st)
  | Raise FileNotFoundError =>
      (Raise SystemExit,
       log st [Printed ("Error: File '" ++ excel_path ++ "' not found. Please check path and filename.")])
  | Raise EmptyDataError =>
      (Raise SystemExit,
       log st [Printed ("Error: File '" ++ excel_path ++ "' is empty or lacks data.")])
  | Raise _ =>
      (Raise SystemExit,
       log st [Printed ("Error reading '" ++ excel_path ++ "': "
                        ++ read_excel_message excel_path
                        ++ ". Ensure it's a valid Excel file.")])
  end.

(** The end of [main]: [generate_html], then [open(html_output_path, "w")]
    and the write. *)
Definition write_html (config : Config) (m : Maps) (st : St) : result unit * St :=
  let html_output_path := path_join (HTML_DIR config) (OUTPUT_FILE config) in
  match generate_html (df st) config m with
  | Ok html =>
      (Ok tt,
       log (write_file st html_output_path (FText html))
         [Printed ("Generated HTML saved to '" ++ html_output_path ++ "'.")])
  | Raise e => (Raise e, st)
  end.

(** [main()], given what [load_config] returned, the tables, the lines
    the user will type and the files.  The diagnostics of [generate_html]
    are left out of [console]. *)
Definition main (loaded : option Config) (m : Maps) (stdin : list string) (st : St)
  : result unit * St :=
  match loaded with
  | None => (Raise SystemExit, log st [Printed "Failed to load configuration."])
  | Some config =>
      let audited_file_path :=
        path_join (EXCEL_DIR config) (AUDITED_PREFIX config ++ EXCEL_FILE config) in
      let html_output_path := path_join (HTML_DIR config) (OUTPUT_FILE config) in
      match files st !! audited_file_path with
      | Some _ =>
          let st := log st [Printed (nl ++ "Audited file '" ++ audited_file_path ++ "' already exists." ++ nl)] in
          match files st !! html_output_path with
          | None =>
              let st := log st [Printed "No corresponding HTML found. Generating HTML..."] in
              match read_excel (files st) audited_file_path with
              | Ok rows => write_html config m (set_df st rows)
              | Raise e => (Raise e, st)
              end
          | Some _ =>
              (Raise SystemExit,
               log st [Printed (nl ++ "HTML output '" ++ html_output_path
                                ++ "' already exists. If you wish to regenerate, please delete or backup the existing file." ++ nl)])
          end
      | None =>
          match load_excel_file config m (EXCEL_FILE config) st with
          | (Raise e, st) => (Raise e, st)
          | (Ok rows, st) =>
              let st := set_df st rows in
              match get_last_audited_row config (files st) (EXCEL_FILE config) with
              | Raise e => (Raise e, st)
              | Ok last_audited_row =>
                  match audit_process config last_audited_row stdin st with
                  | (Raise e, _, st) => (Raise e, st)
                  | (Ok true, _, st) =>
                      let st := write_file st audited_file_path (FSheet (df st)) in
                      let st := log st [Printed ("Completed audit saved to '" ++ audited_file_path ++ "'" ++ nl ++ ".")] in
                      write_html config m st
                  | (Ok false, _, st) =>
                      let in_process_file_path :=
                        path_join (EXCEL_DIR config) (IN_PROCESS_PREFIX config ++ EXCEL_FILE config) in
                      let st := write_file st in_process_file_path (FSheet (df st)) in
                      (Raise SystemExit,
                       log st [Printed (nl ++ "In-process data saved to '" ++ in_process_file_path ++ "'." ++ nl)])
                  end
              end
          end
      end
  end.

(** ** The words of the specification *)

(** The value table of the specification, written out: 1000/M, 900/CM,
    500/D, 400/CD, 100/C, 90/XC, 50/L, 40/XL, 10/X, 9/IX, 5/V, 4/IV, 1/I. *)
Definition roman_table : list (Z * string) :=
  [ (1000, "M"); (900, "CM"); (500, "D"); (400, "CD"); (100, "C"); (90, "XC");
    (50, "L"); (40, "XL"); (10, "X"); (9, "IX"); (5, "V"); (4, "IV"); (1, "I") ].

(** The largest value of a table that is at most [n], with its symbol,
    wherever it stands in the table. *)
Fixpoint largest_value (table : list (Z * string)) (n : Z) : option (Z * string) :=
  match table with
  | [] => None
  | (v, s) :: table' =>
      match largest_value table' n with
      | Some (w, s') => if (v <=? n) && (w <? v) then Some (v, s) else Some (w, s')
      | None => if v <=? n then Some (v, s) else None
      end
  end.

(** The greedy algorithm as the specification words it, over its own
    table: subtract the largest value that fits, append its symbol, until
    the remainder is 0.  [fuel] bounds the number of subtractions. *)
Fixpoint greedy_roman (fuel : nat) (n : Z) : string :=
  match fuel with
  | O => ""
  | S fuel' =>
      if n <=? 0 then ""
      else match largest_value roman_table n with
           | Some (value, sym) => sym ++ greedy_roman fuel' (n - value)
           | None => ""
           end
  end.

(** The same subtraction with the first value of a table that fits, the
    form the two loops of the source are compared with. *)
Definition largest_applicable (table : list (Z * string)) (n : Z) : option (Z * string) :=
  find (fun p => fst p <=? n) table.

Fixpoint greedy (table : list (Z * string)) (fuel : nat) (n : Z) : string :=
  match fuel with
  | O => ""
  | S fuel' =>
      if n <=? 0 then ""
      else match largest_applicable table n with
           | Some (value, sym) => sym ++ greedy table fuel' (n - value)
           | None => ""
           end
  end.

(** A table whose values go down strictly. *)
Fixpoint descending (table : list (Z * string)) : Prop :=
  match table with
  | [] => True
  | p :: table' => Forall (fun q => fst q < fst p) table' /\ descending table'
  end.

(** Every character is a capital letter [A-Z]. *)
Fixpoint all_upper (s : string) : bool :=
  match s with
  | EmptyString => true
  | String c s' =>
      let n := nat_of_ascii c in
      (65 <=? n)%nat && (n <=? 90)%nat && all_upper s'
  end.

(** The standard form of a Roman numeral up to 3999: thousands, hundreds,
    tens and units, each written in the one standard way.  [read_place]
    takes the first text of a list that starts [s], with its value and
    what follows it; the lists give the longer texts first. *)
Fixpoint strip_prefix (p s : string) : option string :=
  match p with
  | EmptyString => Some s
  | String a p' =>
      match s with
      | String b s' => if Ascii.eqb a b then strip_prefix p' s' else None
      | EmptyString => None
      end
  end.

Fixpoint read_place (texts : list (string * Z)) (s : string) : option (Z * string) :=
  match texts with
  | [] => None
  | (p, v) :: texts' =>
      match strip_prefix p s with
      | Some rest => Some (v, rest)
      | None => read_place texts' s
      end
  end.

Definition thousands : list (string * Z) :=
  [ ("MMM", 3000); ("MM", 2000); ("M", 1000); ("", 0) ].

Definition hundreds : list (string * Z) :=
  [ ("DCCC", 800); ("DCC", 700); ("CCC", 300); ("CM", 900); ("CD", 400); ("DC", 600);
    ("CC", 200); ("D", 500); ("C", 100); ("", 0) ].

Definition tens : list (string * Z) :=
  [ ("LXXX", 80); ("LXX", 70); ("XXX", 30); ("XC", 90); ("XL", 40); ("LX", 60);
    ("XX", 20); ("L", 50); ("X", 10); ("", 0) ].

Definition units : list (string * Z) :=
  [ ("VIII", 8); ("VII", 7); ("III", 3); ("IX", 9); ("IV", 4); ("VI", 6);
    ("II", 2); ("V", 5); ("I", 1); ("", 0) ].

(** A strict parser: the value of a numeral in standard form, [None] for
    the empty text and for any other text. *)
Definition standard_roman (s : string) : option Z :=
  match read_place thousands s with
  | Some (a, s1) =>
      match read_place hundreds s1 with
      | Some (b, s2) =>
          match read_place tens s2 with
          | Some (c, s3) =>
              match read_place units s3 with
              | Some (d, s4) =>
                  if String.eqb s4 "" && negb (String.eqb s "")
                  then Some (a + b + c + d) else None
              | None => None
              end
          | None => None
          end
      | None => None
      end
  | None => None
  end.

(** A lenient parser of Roman numerals: a symbol smaller than the one
    after it is subtracted, any other is added. *)
Definition roman_value (c : ascii) : option Z :=
  if Ascii.eqb c "I" then Some 1
  else if Ascii.eqb c "V" then Some 5
  else if Ascii.eqb c "X" then Some 10
  else if Ascii.eqb c "L" then Some 50
  else if Ascii.eqb c "C" then Some 100
  else if Ascii.eqb c "D" then Some 500
  else if Ascii.eqb c "M" then Some 1000
  else None.

Fixpoint roman_values (s : string) : option (list Z) :=
  match s with
  | EmptyString => Some []
  | String c s' =>
      match roman_value c, roman_values s' with
      | Some v, Some vs => Some (v :: vs)
      | _, _ => None
      end
  end.

Fixpoint sum_subtractive (vs : list Z) : Z :=
  match vs with
  | [] => 0
  | v :: vs' =>
      match vs' with
      | w :: _ => if v <? w then sum_subtractive vs' - v else v + sum_subtractive vs'
      | [] => v
      end
  end.

Definition parse_roman (s : string) : option Z :=
  option_map sum_subtractive (roman_values s).

(** A table row with four cells, in the layout of the templates. *)
Definition table_row (c1 c2 c3 c4 : string) : string :=
  nl ++ "                    <tr>" ++ nl
  ++ "                        " ++ c1 ++ nl
  ++ "                        " ++ c2 ++ nl
  ++ "                        " ++ c3 ++ nl
  ++ "                        " ++ c4 ++ nl
  ++ "                    </tr>".

Definition td (content : string) : string := "<td>" ++ content ++ "</td>".

Definition anchor (pdf_link text : string) : string :=
  "<a target=" ++ dq ++ "_blank" ++ dq ++ " href=" ++ dq ++ pdf_link ++ dq ++ ">" ++ text ++ "</a>".

Definition td_empty_type (content : string) : string :=
  "<td type=" ++ dq ++ "empty" ++ dq ++ ">" ++ content ++ "</td>".

(** ** Predicates, auxiliary functions and examples *)

Definition positive_keys (table : list (Z * string)) : Prop :=
  Forall (fun p => 1 <= fst p) table.

(** The round trip, checked on every integer of the range. *)
Definition roundtrip_ok (n : Z) : bool :=
  match standard_roman (arabic_to_roman n) with
  | Some m => m =? n
  | None => false
  end
  && all_upper (arabic_to_roman n)
  && match parse_roman (arabic_to_roman n) with
     | Some m => m =? n
     | None => false
     end.

Fixpoint all_digits (s : string) : bool :=
  match s with
  | EmptyString => true
  | String c s' => is_digit c && all_digits s'
  end.

Fixpoint no_digit (s : string) : bool :=
  match s with
  | EmptyString => true
  | String c s' => negb (is_digit c) && no_digit s'
  end.

Definition starts_with_digit (s : string) : bool :=
  match s with
  | EmptyString => false
  | String c _ => is_digit c
  end.

(** The integer a run of digits denotes, most significant digit first. *)
Fixpoint decimal_value_acc (acc : Z) (s : string) : Z :=
  match s with
  | EmptyString => acc
  | String c s' => decimal_value_acc (10 * acc + (Z.of_nat (nat_of_ascii c) - 48)) s'
  end.

Definition decimal_value (s : string) : Z := decimal_value_acc 0 s.

Ltac ascii_cases c :=
  destruct c as [[|] [|] [|] [|] [|] [|] [|] [|]].

(** The local variables of the loop body that depend on the row alone. *)
Definition row_statute_type (row : Row) : string := strip (str_of_cell (Type_ row)).

Definition row_public_private (row : Row) : string :=
  match Public_Private row with
  | Some c => str_of_cell c
  | None => ""
  end.

Definition row_title (row : Row) : string :=
  if pd_isna (Title row) then "" else str_of_cell (Title row).

Definition row_pdf_link (config : Config) (row : Row) : string :=
  generate_pdf_link config (row_statute_type row) (row_public_private row)
    (str_of_cell (PDF_Start row)).

Definition row_generator (config : Config) (m : Maps) (row : Row) : option py_global :=
  match map_html_generators m (row_statute_type row) with
  | Some name => globals config m !! name
  | None => None
  end.

(** The markup of the fallback for the row, and its diagnostic. *)
Definition fallback_segment (config : Config) (row : Row) : string * list string :=
  (table_row (td_empty_type (anchor (row_pdf_link config row) (row_statute_type row)))
     (td "") (td "") (td ""),
   [no_generator_message (row_statute_type row)]).

(** What the row contributes whatever the session: the markup of its
    formatter, or of the fallback with its diagnostic. *)
Definition row_segment (config : Config) (m : Maps) (row : Row)
  : result (string * list string) :=
  match row_generator config m row with
  | Some g =>
      if truth (Some g) then
        bind (call g (row_pdf_link config row) (row_statute_type row) (row_title row)
                (str_of_cell (Date row)) (row_public_private row)
                (str_of_cell (Number_Chapter row)))
          (fun seg => Ok (seg, []))
      else Ok (fallback_segment config row)
  | None => Ok (fallback_segment config row)
  end.

(** The state after a row whose segment is [p]. *)
Definition after_row (st : gen_state) (row : Row) (p : string * list string) : gen_state :=
  let st1 := session_step (str_of_cell (Session row)) st in
  {| html_content := html_content st1 ++ fst p;
     previous_session := previous_session st1;
     printed := printed st ++ snd p |}.

(** The segments of a run of rows, one after the other. *)
Fixpoint segments (config : Config) (m : Maps) (rows : list Row)
  : result (string * list string) :=
  match rows with
  | [] => Ok ("", [])
  | row :: rows' =>
      bind (row_segment config m row) (fun p =>
      bind (segments config m rows') (fun q =>
      Ok (fst p ++ fst q, (snd p ++ snd q)%list)))
  end.

Definition has_session (s : string) (row : Row) : Prop := str_of_cell (Session row) = s.

Definition example_config : Config :=
  {| CONGRESS := "31st Congress"; CONGRESS_START_DATE := "1849"; CONGRESS_END_DATE := "1851";
     PUBLIC_PDF_URL := "pub.pdf"; PRIVATE_PDF_URL := "priv.pdf";
     EXCEL_FILE := "LoC_31.xlsx"; START_ROW := 2; SKIP_ROWS := None;
     OUTPUT_FILE := "31.html"; EXCEL_DIR := "excel"; HTML_DIR := "html"; TMP_DIR := "tmp";
     IN_PROCESS_PREFIX := "in-process-"; AUDITED_PREFIX := "audited-" |}.

Definition example_maps : Maps :=
  {| header_mappings := ∅; statute_mappings := ∅;
     html_generator_mappings :=
       list_to_map [ ("Law", "html_for_law");
                     ("Act", "html_for_act_resolution_appendix") ] |}.

Definition example_row (session type date number_chapter : Cell) : Row :=
  {| Session := session; Type_ := type; Public_Private := Some (CStr "Public");
     Title := CStr "T"; Date := date; Number_Chapter := number_chapter;
     PDF_Start := CInt 7 |}.

Fixpoint all_space (s : string) : bool :=
  match s with
  | EmptyString => true
  | String c s' => py_isspace c && all_space s'
  end.

(** What a run of the [while True] loop of row [idx] can do, whatever is
    typed: it prompts for the row first; it returns only [False], and then
    the checkpoint file holds [str(idx)] and the data frame is as before;
    it breaks with the files as before and the data frame either as
    before or with the PDF Start of row [idx] set to an integer; it raises
    [EOFError], or what the store into the data frame raised and is no
    [ValueError], and then the files and the data frame are as before. *)
Definition while_True_post (config : Config) (idx : nat) (row : Row)
  (st : St) (res : result loop_exit * list string * St) : Prop :=
  let '(r, _, st') := res in
  (exists es, console st' = (console st ++ [Cleared; Prompted (confirm_prompt row)] ++ es)%list)
  /\ match r with
     | Ok (Return b) =>
         b = false
         /\ files st' = <[checkpoint_path config (EXCEL_FILE config)
                            := FText (str_of_int (Z.of_nat idx))]> (files st)
         /\ df st' = df st
     | Ok Break =>
         files st' = files st
         /\ (df st' = df st
             \/ exists v, df st' = alter (set_PDF_Start (CInt v)) idx (df st))
     | Raise e =>
         (e = EOFError
          \/ e <> ValueError /\ exists v, at_set (df st) idx v = Raise e)
         /\ files st' = files st /\ df st' = df st
     end.


(** The paths of the examples: directories and file names that are
    plain relative names, where [Path(a) / b] puts a separator between
    the two and the stem is the name up to its last dot (the whole name
    when the dot is its first or last character, or when it has none). *)
Definition example_path_join (a b : string) : string := a ++ "/" ++ b.

Definition example_path_stem (s : string) : string :=
  match rsplit_dot s with
  | Some (String c a, String d b) => String c a
  | _ => s
  end.

(** The store into a column of 64-bit integers, as pandas 2.2 does it:
    an integer of the 64 bits is stored; one below them is stored too,
    the column turning into a column of objects; from [2^63] to
    [2^64 - 1] the store raises [AssertionError], and from [2^64] on it
    raises [ValueError]. *)
Definition at_set_int64 (d : list Row) (idx : nat) (v : Z) : result unit :=
  if v <? 2 ^ 63 then Ok tt
  else if v <? 2 ^ 64 then Raise AssertionError
  else Raise ValueError.

(** What pandas says of a file that is no workbook. *)
Definition example_read_excel_message (path : string) : string :=
  "Excel file format cannot be determined, you must specify an engine manually.".

Definition example_df : list Row :=
  [ example_row (CStr "A") (CStr "Law") (CStr "1850") (CStr "Chap. 1");
    example_row (CStr "A") (CStr "Law") (CStr "1850") (CStr "Chap. 2");
    example_row (CStr "B") (CStr "Act") (CStr "1851") (CStr "Chap. 3") ].

Definition example_st : St := {| df := example_df; files := ∅; console := [] |}.

Definition audited_file_path (config : Config) : string :=
  path_join (EXCEL_DIR config) (AUDITED_PREFIX config ++ EXCEL_FILE config).

Definition html_output_path (config : Config) : string :=
  path_join (HTML_DIR config) (OUTPUT_FILE config).

(** The table of dispatch as the names say it: each name of a formatter
    stands for the function of that name. *)
Definition formatter_of_name (name : string) : option generator :=
  if String.eqb name "html_for_law" then Some html_for_law
  else if String.eqb name "html_for_act_resolution_appendix"
       then Some html_for_act_resolution_appendix
  else if String.eqb name "generic_html_generator" then Some generic_html_generator
  else if String.eqb name "html_for_articles_ordinance" then Some html_for_articles_ordinance
  else if String.eqb name "html_for_special_pages" then Some html_for_special_pages
  else if String.eqb name "html_with_empty_cells" then Some html_with_empty_cells
  else None.

(** Rows in runs: each run has a session that is not empty and differs
    from the session of the run before ([prev] before the first run), and
    has at least one row, all of that session. *)
Fixpoint well_grouped (prev : string) (gs : list (string * list Row)) : Prop :=
  match gs with
  | [] => True
  | (s, rows) :: gs' =>
      s <> "" /\ s <> prev /\ rows <> [] /\ Forall (has_session s) rows
      /\ well_grouped s gs'
  end.

(** The rows of the runs, in their order. *)
Definition rows_of (gs : list (string * list Row)) : list Row :=
  concat (map snd gs).

(** The session of the last run, [prev] when there is none. *)
Fixpoint last_session (prev : string) (gs : list (string * list Row)) : string :=
  match gs with
  | [] => prev
  | (s, _) :: gs' => last_session s gs'
  end.

(** The markup of the runs: for each run the table before is closed when
    one is open, a table is opened under the session, and the segments of
    the rows follow. *)
Fixpoint groups_markup (config : Config) (m : Maps) (opened : bool)
  (gs : list (string * list Row)) : result (string * list string) :=
  match gs with
  | [] => Ok ("", [])
  | (s, rows) :: gs' =>
      bind (segments config m rows) (fun q =>
      bind (groups_markup config m true gs') (fun t =>
      Ok ((if opened then close_table else "") ++ open_table s ++ fst q ++ fst t,
          (snd q ++ snd t)%list)))
  end.

(** What the audit may do to a row: nothing, or set its PDF Start to an
    integer. *)
Definition audited (r r' : Row) : Prop :=
  r' = r \/ exists v : Z, r' = set_PDF_Start (CInt v) r.

(** What the audit may do to the data frame: the rows stay as many, each
    one is [audited], and the rows below the checkpoint are as before. *)
Definition audit_frame (last : Z) (d d' : list Row) : Prop :=
  length d' = length d
  /\ forall (j : nat) (r : Row),
       d !! j = Some r ->
       exists r' : Row,
         d' !! j = Some r' /\ audited r r' /\ (Z.of_nat j < last -> r' = r).

(** The terminal when each of the rows is asked once. *)
Definition prompts (rows : list Row) : list event :=
  flat_map (fun row => [Cleared; Prompted (confirm_prompt row)]) rows.

(** A table of [get(key, key)] whose values are stable: a value is no key
    of the table, or a key that stands for itself. *)
Definition stable_table (t : gmap string string) : Prop :=
  forall k v : string, t !! k = Some v -> t !! v = None \/ t !! v = Some v.

(** Two rows that differ at most in their type. *)
Definition same_but_type (r r' : Row) : Prop :=
  Session r' = Session r /\ Public_Private r' = Public_Private r
  /\ Title r' = Title r /\ Date r' = Date r
  /\ Number_Chapter r' = Number_Chapter r /\ PDF_Start r' = PDF_Start r.

Definition in_process_file_path (config : Config) : string :=
  path_join (EXCEL_DIR config) (IN_PROCESS_PREFIX config ++ EXCEL_FILE config).

(** ** Strings *)

Lemma append_cons (c : ascii) (s t : string) : String c s ++ t = String c (s ++ t).
Proof. reflexivity. Qed.

Lemma append_nil_l (s : string) : "" ++ s = s.
Proof. reflexivity. Qed.

Lemma append_nil_r (s : string) : s ++ "" = s.
Proof.
  induction s as [|c s IH]; [reflexivity|].
  rewrite append_cons. now f_equal.
Qed.

Lemma append_assoc (s t u : string) : (s ++ t) ++ u = s ++ (t ++ u).
Proof.
  induction s as [|c s IH]; [reflexivity|].
  rewrite !append_cons. now f_equal.
Qed.

(** Equal once the appends are nested to the right. *)
Ltac string_assoc :=
  repeat rewrite append_assoc; reflexivity.

(** ** [arabic_to_roman] *)

(** The loop [while num >= value] with a key of at least 1 stops before
    its fuel does: more fuel changes nothing. *)
Lemma while_ge_fuel (value : Z) (sym : string) (fuel1 fuel2 : nat) :
  1 <= value ->
  forall (num : Z) (acc : string),
    (Z.to_nat num <= fuel1)%nat -> (Z.to_nat num <= fuel2)%nat ->
    while_ge fuel1 value sym num acc = while_ge fuel2 value sym num acc.
Proof.
  intros Hv. revert fuel2.
  induction fuel1 as [|f1 IH]; intros fuel2 num acc H1 H2.
  - destruct fuel2 as [|f2]; simpl; [reflexivity|].
    destruct (Z.geb_spec num value); [lia | reflexivity].
  - destruct fuel2 as [|f2]; simpl.
    + destruct (Z.geb_spec num value); [lia | reflexivity].
    + destruct (Z.geb_spec num value); [|reflexivity].
      apply IH; lia.
Qed.

(** The equation of the loop, as the source reads. *)
Lemma while_ge_unfold (value : Z) (sym : string) (num : Z) (acc : string) :
  1 <= value ->
  while_ge (Z.to_nat num) value sym num acc =
  if num >=? value
  then while_ge (Z.to_nat (num - value)) value sym (num - value) (acc ++ sym)
  else (num, acc).
Proof.
  intros Hv.
  destruct (Z.geb_spec num value) as [Hge|Hlt].
  - destruct (Z.to_nat num) as [|f] eqn:E; [lia|]. simpl.
    destruct (Z.geb_spec num value); [|lia].
    apply while_ge_fuel; lia.
  - destruct (Z.to_nat num) as [|f]; simpl; [reflexivity|].
    destruct (Z.geb_spec num value); [lia | reflexivity].
Qed.

(** What is left after the loop is below the key, and not above what
    came in. *)
Lemma while_ge_result (value : Z) (sym : string) (fuel : nat) :
  1 <= value ->
  forall (num : Z) (acc : string),
    (Z.to_nat num <= fuel)%nat ->
    fst (while_ge fuel value sym num acc) < value /\
    fst (while_ge fuel value sym num acc) <= num.
Proof.
  intros Hv. induction fuel as [|f IH]; intros num acc Hf; simpl.
  - lia.
  - destruct (Z.geb_spec num value); simpl; [|lia].
    destruct (IH (num - value) (acc ++ sym)); lia.
Qed.

Lemma largest_applicable_bounds (table : list (Z * string)) (n w : Z) (s : string) :
  positive_keys table -> largest_applicable table n = Some (w, s) -> 1 <= w <= n.
Proof.
  unfold positive_keys, largest_applicable. rewrite Forall_forall.
  intros Hpos E. apply find_some in E. destruct E as [Hin Hle].
  apply list_elem_of_In in Hin.
  specialize (Hpos _ Hin). apply Z.leb_le in Hle. simpl in *. lia.
Qed.

(** The greedy subtraction stops before its fuel does, too. *)
Lemma greedy_fuel (table : list (Z * string)) :
  positive_keys table ->
  forall (fuel1 fuel2 : nat) (n : Z),
    (Z.to_nat n <= fuel1)%nat -> (Z.to_nat n <= fuel2)%nat ->
    greedy table fuel1 n = greedy table fuel2 n.
Proof.
  intros Hpos. induction fuel1 as [|f1 IH]; intros fuel2 n H1 H2.
  - destruct fuel2 as [|f2]; simpl; [reflexivity|].
    destruct (Z.leb_spec n 0); [reflexivity | lia].
  - destruct fuel2 as [|f2]; simpl.
    + destruct (Z.leb_spec n 0); [reflexivity | lia].
    + destruct (Z.leb_spec n 0); [reflexivity|].
      destruct (largest_applicable table n) as [[w s]|] eqn:E; [|reflexivity].
      apply largest_applicable_bounds in E; [|assumption].
      f_equal. apply IH; lia.
Qed.

(** A key above [n] is never chosen by the greedy choice from [n] on. *)
Lemma greedy_skip (v : Z) (sym : string) (table : list (Z * string)) (fuel : nat) :
  positive_keys table ->
  forall n : Z, n < v -> greedy ((v, sym) :: table) fuel n = greedy table fuel n.
Proof.
  intros Hpos. induction fuel as [|f IH]; intros n Hn; simpl; [reflexivity|].
  destruct (Z.leb_spec n 0); [reflexivity|].
  unfold largest_applicable at 1. simpl.
  destruct (Z.leb_spec v n); [lia|].
  fold (largest_applicable table n).
  destruct (largest_applicable table n) as [[w s]|] eqn:E; [|reflexivity].
  apply largest_applicable_bounds in E; [|assumption].
  f_equal. apply IH. lia.
Qed.

(** One key: the loop of the source, then the greedy choice among the
    later keys on what is left, is the greedy choice among all of them. *)
Lemma while_ge_greedy (v : Z) (sym : string) (table : list (Z * string)) :
  1 <= v -> positive_keys table ->
  forall (fuel : nat) (num : Z) (acc : string),
    (Z.to_nat num <= fuel)%nat ->
    snd (while_ge fuel v sym num acc)
      ++ greedy table fuel (fst (while_ge fuel v sym num acc))
    = acc ++ greedy ((v, sym) :: table) fuel num.
Proof.
  intros Hv Hpos. induction fuel as [|f IH]; intros num acc Hf.
  - reflexivity.
  - cbn [while_ge].
    destruct (Z.geb_spec num v) as [Hge|Hlt].
    + destruct (while_ge_result v sym f Hv (num - v) (acc ++ sym)) as [_ Hle]; [lia|].
      rewrite (greedy_fuel table Hpos (S f) f) by lia.
      rewrite IH by lia.
      cbn [greedy]. destruct (Z.leb_spec num 0); [lia|].
      unfold largest_applicable at 1. simpl.
      destruct (Z.leb_spec v num); [|lia].
      apply append_assoc.
    + cbn [fst snd]. f_equal. symmetry. apply greedy_skip; assumption.
Qed.

Lemma for_values_greedy (table : list (Z * string)) :
  positive_keys table ->
  forall (num : Z) (acc : string),
    for_values table num acc = acc ++ greedy table (Z.to_nat num) num.
Proof.
  induction table as [|[v sym] table IH]; intros Hpos num acc.
  - cbn [for_values]. destruct (Z.to_nat num); simpl.
    + symmetry. apply append_nil_r.
    + destruct (num <=? 0); symmetry; apply append_nil_r.
  - inversion Hpos as [|p l Hv Hpos']; subst. simpl in Hv.
    cbn [for_values].
    pose proof (while_ge_greedy v sym table Hv Hpos' (Z.to_nat num) num acc (le_n _)) as Hw.
    pose proof (while_ge_result v sym (Z.to_nat num) Hv num acc (le_n _)) as [_ Hle].
    destruct (while_ge (Z.to_nat num) v sym num acc) as [num' acc'].
    cbn [fst snd] in Hw, Hle.
    rewrite IH by assumption. rewrite <- Hw.
    f_equal. apply greedy_fuel; [assumption | lia | lia].
Qed.

Lemma numeral_map_positive : positive_keys numeral_map.
Proof. unfold positive_keys, numeral_map. repeat constructor; simpl; lia. Qed.

(** The source's two nested loops compute the greedy subtraction of the
    specification, for every integer. *)
Lemma arabic_to_roman_greedy_code (n : Z) (fuel : nat) :
  (Z.to_nat n <= fuel)%nat -> arabic_to_roman n = greedy numeral_map fuel n.
Proof.
  intros Hf. unfold arabic_to_roman.
  rewrite for_values_greedy by apply numeral_map_positive.
  rewrite append_nil_l. apply greedy_fuel; [apply numeral_map_positive | lia | lia].
Qed.

(** In a table that goes down, the first value that fits is the largest
    one that fits. *)
Lemma largest_value_descending (table : list (Z * string)) (n : Z) :
  descending table -> largest_value table n = largest_applicable table n.
Proof.
  unfold largest_applicable.
  induction table as [|[v s] table IH]; intros Hd; [reflexivity|].
  destruct Hd as [Hv Hd]. cbn [largest_value find fst]. rewrite (IH Hd).
  destruct (find (fun p => fst p <=? n) table) as [[w s']|] eqn:E.
  - apply find_some in E. destruct E as [Hin _].
    apply list_elem_of_In in Hin.
    rewrite Forall_forall in Hv. specialize (Hv _ Hin). cbn [fst] in Hv.
    destruct (Z.leb_spec v n); cbn [andb]; [|reflexivity].
    destruct (Z.ltb_spec w v); [reflexivity | lia].
  - reflexivity.
Qed.

(** The table of the source is the table of the specification, and it
    goes down. *)
Lemma numeral_map_roman_table : numeral_map = roman_table.
Proof. reflexivity. Qed.

Lemma roman_table_descending : descending roman_table.
Proof. unfold roman_table. cbn [descending]. repeat split; repeat constructor; cbn; lia. Qed.

Lemma greedy_roman_code (fuel : nat) :
  forall n : Z, greedy_roman fuel n = greedy numeral_map fuel n.
Proof.
  induction fuel as [|fuel IH]; intros n; [reflexivity|].
  cbn [greedy_roman greedy].
  rewrite largest_value_descending by apply roman_table_descending.
  rewrite <- numeral_map_roman_table.
  destruct (n <=? 0); [reflexivity|].
  destruct (largest_applicable numeral_map n) as [[v s]|]; [|reflexivity].
  now rewrite IH.
Qed.

(** The two nested loops of the source compute the greedy subtraction of
    the specification over the table of the specification, for every
    integer. *)
Lemma arabic_to_roman_greedy (n : Z) (fuel : nat) :
  (Z.to_nat n <= fuel)%nat -> arabic_to_roman n = greedy_roman fuel n.
Proof.
  intros Hf. rewrite greedy_roman_code. now apply arabic_to_roman_greedy_code.
Qed.

Lemma roundtrip_range : forallb (fun k => roundtrip_ok (Z.of_nat k)) (seq 1 3999) = true.
Proof. vm_compute. reflexivity. Qed.

Lemma roundtrip_ok_spec (n : Z) :
  1 <= n <= 3999 -> roundtrip_ok n = true.
Proof.
  intros H. pose proof roundtrip_range as R.
  rewrite forallb_forall in R.
  specialize (R (Z.to_nat n)). rewrite Z2Nat.id in R by lia.
  apply R. apply in_seq. lia.
Qed.

(** C1. For every integer n of [1, 3999], [arabic_to_roman n] is the
    numeral that the greedy subtraction gives over the value table of the
    specification, 1000/M, 900/CM, 500/D, 400/CD, 100/C, 90/XC, 50/L,
    40/XL, 10/X, 9/IX, 5/V, 4/IV, 1/I (with any fuel of at least n); it is
    made of capital letters; it is in the standard form of Roman numerals
    and the strict parser of that form reads n back from it, as the
    lenient subtractive parser does; and the three examples of the
    specification hold. *)
Theorem arabic_to_roman_spec (n : Z) (H : 1 <= n <= 3999) :
  (forall fuel : nat, (Z.to_nat n <= fuel)%nat -> arabic_to_roman n = greedy_roman fuel n)
  /\ all_upper (arabic_to_roman n) = true
  /\ standard_roman (arabic_to_roman n) = Some n
  /\ parse_roman (arabic_to_roman n) = Some n
  /\ arabic_to_roman 4 = "IV"
  /\ arabic_to_roman 1994 = "MCMXCIV"
  /\ arabic_to_roman 2024 = "MMXXIV".
Proof.
  pose proof (roundtrip_ok_spec n H) as R. unfold roundtrip_ok in R.
  apply andb_true_iff in R. destruct R as [R Hp].
  apply andb_true_iff in R. destruct R as [Hs Hup].
  split; [intros fuel Hf; now apply arabic_to_roman_greedy|].
  split; [assumption|].
  split.
  { destruct (standard_roman (arabic_to_roman n)) as [m|]; [|discriminate].
    apply Z.eqb_eq in Hs. now subst. }
  split.
  - destruct (parse_roman (arabic_to_roman n)) as [m|]; [|discriminate].
    apply Z.eqb_eq in Hp. now subst.
  - repeat split; reflexivity.
Qed.

Lemma arabic_to_roman_spec_witness :
  1 <= 1994 <= 3999
  /\ arabic_to_roman 1994 = greedy_roman 1994 1994
  /\ standard_roman (arabic_to_roman 1994) = Some 1994.
Proof.
  split; [lia|].
  destruct (arabic_to_roman_spec 1994) as (Hg & _ & Hs & _); [lia|].
  split; [apply Hg; lia | exact Hs].
Defined.

(** ** [int] on a run of digits *)

Lemma digit_not_space (c : ascii) :
  is_digit c = true -> py_isspace c = false /\ int_isspace c = false.
Proof. ascii_cases c; intros H; try discriminate H; split; reflexivity. Qed.

Lemma digit_not_sign (c : ascii) :
  is_digit c = true ->
  Ascii.eqb c "+" = false /\ Ascii.eqb c "-" = false /\ Ascii.eqb c "_" = false.
Proof. ascii_cases c; intros H; try discriminate H; repeat split; reflexivity. Qed.

Lemma uint_of_string_digits (s : string) :
  all_digits s = true -> exists u, NilEmpty.uint_of_string s = Some u.
Proof.
  induction s as [|c s IH]; intros H.
  - exists Decimal.Nil. reflexivity.
  - simpl in H. apply andb_true_iff in H. destruct H as [Hc Hs].
    destruct (IH Hs) as [u Hu]. simpl. rewrite Hu.
    ascii_cases c; try discriminate Hc; eexists; reflexivity.
Qed.

Lemma of_uint_acc_value (s : string) :
  forall (u : Decimal.uint) (acc : positive),
    NilEmpty.uint_of_string s = Some u ->
    Z.pos (Pos.of_uint_acc u acc) = decimal_value_acc (Z.pos acc) s.
Proof.
  induction s as [|c s IH]; intros u acc H.
  - simpl in H. injection H as <-. reflexivity.
  - simpl in H. destruct (NilEmpty.uint_of_string s) as [u'|] eqn:E;
      [|destruct c; discriminate H].
    ascii_cases c; try discriminate H;
      injection H as <-; cbn [Pos.of_uint_acc decimal_value_acc];
      rewrite (IH u' _ eq_refl); f_equal;
      match goal with
      | |- context [Z.of_nat (nat_of_ascii ?a)] =>
          let v := eval vm_compute in (Z.of_nat (nat_of_ascii a)) in
          change (Z.of_nat (nat_of_ascii a)) with v
      end; lia.
Qed.

Lemma of_uint_value (s : string) (u : Decimal.uint) :
  NilEmpty.uint_of_string s = Some u -> Z.of_uint u = decimal_value s.
Proof.
  unfold decimal_value. revert u.
  induction s as [|c s IH]; intros u H.
  - simpl in H. injection H as <-. reflexivity.
  - simpl in H. destruct (NilEmpty.uint_of_string s) as [u'|] eqn:E;
      [|destruct c; discriminate H].
    ascii_cases c; try discriminate H;
      injection H as <-; unfold Z.of_uint; cbn [Pos.of_uint decimal_value_acc Z.of_N];
      first [ apply (IH u' eq_refl) | apply (of_uint_acc_value s u' _ E) ].
Qed.

Lemma int_digits_all_digits (s : string) (prev : bool) :
  all_digits s = true -> (s <> "" \/ prev = true) -> int_digits prev s = Some s.
Proof.
  revert prev. induction s as [|c s IH]; intros prev H Hne.
  - destruct Hne as [Hne| ->]; [congruence | reflexivity].
  - simpl in H. apply andb_true_iff in H. destruct H as [Hc Hs].
    simpl. rewrite Hc. rewrite IH; auto.
Qed.

Lemma rstrip_all_digits (space : ascii -> bool) (s : string) :
  (forall c, is_digit c = true -> space c = false) ->
  all_digits s = true -> rstrip space s = s.
Proof.
  intros Hsp. induction s as [|c s IH]; intros H; [reflexivity|].
  simpl in H. apply andb_true_iff in H. destruct H as [Hc Hs].
  simpl. rewrite (IH Hs). rewrite (Hsp c Hc).
  destruct s; reflexivity.
Qed.

Lemma strip_with_all_digits (space : ascii -> bool) (s : string) :
  (forall c, is_digit c = true -> space c = false) ->
  all_digits s = true -> rstrip space (lstrip space s) = s.
Proof.
  intros Hsp H. destruct s as [|c s]; [reflexivity|].
  pose proof H as H'. simpl in H'. apply andb_true_iff in H'. destruct H' as [Hc _].
  cbn [lstrip]. rewrite (Hsp c Hc). now apply rstrip_all_digits.
Qed.

(** [int] reads a run of digits as the integer it denotes. *)
Lemma int_of_str_digits (s : string) :
  all_digits s = true -> s <> "" -> int_of_str s = Ok (decimal_value s).
Proof.
  intros H Hne. unfold int_of_str.
  rewrite strip_with_all_digits by (assumption || apply digit_not_space).
  destruct s as [|c s]; [congruence|].
  pose proof H as H'. simpl in H'. apply andb_true_iff in H'. destruct H' as [Hc Hs].
  destruct (digit_not_sign c Hc) as (Hplus & Hminus & _).
  assert (Hu : int_unsigned (String c s) = Some (decimal_value (String c s))).
  { unfold int_unsigned. rewrite int_digits_all_digits by (auto; left; congruence).
    destruct (uint_of_string_digits _ H) as [u Hu]. rewrite Hu.
    now rewrite (of_uint_value _ _ Hu). }
  ascii_cases c; try discriminate Hc; rewrite Hu; reflexivity.
Qed.

(** ** [re.search] for the first run of digits *)

Lemma take_digits_run (digits post : string) :
  all_digits digits = true -> starts_with_digit post = false ->
  take_digits (digits ++ post) = digits.
Proof.
  intros Hd Hp. induction digits as [|c d IH].
  - rewrite append_nil_l. destruct post as [|c p]; [reflexivity|].
    simpl in Hp. simpl. now rewrite Hp.
  - simpl in Hd. apply andb_true_iff in Hd. destruct Hd as [Hc Hd].
    rewrite append_cons. simpl. rewrite Hc. now rewrite IH.
Qed.

Lemma re_search_digits_run (pre digits post : string) :
  no_digit pre = true -> all_digits digits = true -> digits <> "" ->
  starts_with_digit post = false ->
  re_search_digits (pre ++ digits ++ post) = Some digits.
Proof.
  intros Hpre Hd Hne Hp. induction pre as [|c pre IH].
  - rewrite append_nil_l.
    destruct digits as [|c d]; [congruence|].
    pose proof Hd as Hd'. simpl in Hd'. apply andb_true_iff in Hd'. destruct Hd' as [Hc _].
    rewrite append_cons. cbn [re_search_digits]. rewrite Hc.
    rewrite <- append_cons. now rewrite take_digits_run.
  - simpl in Hpre. apply andb_true_iff in Hpre. destruct Hpre as [Hc Hpre].
    rewrite append_cons. cbn [re_search_digits].
    apply negb_true_iff in Hc. rewrite Hc. now apply IH.
Qed.

Lemma re_search_digits_none (s : string) :
  no_digit s = true -> re_search_digits s = None.
Proof.
  induction s as [|c s IH]; intros H; [reflexivity|].
  simpl in H. apply andb_true_iff in H. destruct H as [Hc Hs].
  apply negb_true_iff in Hc. simpl. rewrite Hc. now apply IH.
Qed.

(** ** The formatters as rows of cells *)

Lemma html_for_law_row (pdf_link statute_type title date public_private number_chapter : string) :
  html_for_law pdf_link statute_type title date public_private number_chapter
  = Ok (table_row (td (anchor pdf_link number_chapter)) (td public_private) (td title) (td date)).
Proof. unfold html_for_law, table_row, td, anchor. f_equal. string_assoc. Qed.

Lemma generic_html_generator_row
  (pdf_link statute_type title date public_private number_chapter : string) :
  generic_html_generator pdf_link statute_type title date public_private number_chapter
  = Ok (table_row (td (anchor pdf_link statute_type)) (td "") (td title) (td date)).
Proof. unfold generic_html_generator, table_row, td, anchor. f_equal. string_assoc. Qed.

Lemma html_with_empty_cells_row
  (pdf_link statute_type title date public_private number_chapter : string) :
  html_with_empty_cells pdf_link statute_type title date public_private number_chapter
  = Ok (table_row (td_empty_type (anchor pdf_link statute_type)) (td "") (td "") (td "")).
Proof. unfold html_with_empty_cells, table_row, td, td_empty_type, anchor. f_equal. string_assoc. Qed.

(** C2, as the code has it.  When [number_chapter] is [pre ++ digits ++ post]
    with no digit in [pre], a run of digits [digits] that is not empty,
    does not go on into [post] and is not longer than the interpreter
    converts, the formatter returns a row of four cells:
    the type under an anchor to the PDF, the public/private value as it
    came in, the title after the Roman numeral of the integer [digits]
    denotes and a full stop and a space, and the date. *)
Theorem html_for_act_resolution_appendix_row
  (pdf_link statute_type title date public_private pre digits post : string)
  (Hpre : no_digit pre = true)
  (Hdigits : all_digits digits = true)
  (Hrun : digits <> "")
  (Hpost : starts_with_digit post = false)
  (Hlimit : (String.length digits <= int_max_str_digits)%nat) :
  html_for_act_resolution_appendix pdf_link statute_type title date public_private
    (pre ++ digits ++ post)
  = Ok (table_row (td (anchor pdf_link statute_type))
          (td public_private)
          (td (arabic_to_roman (decimal_value digits) ++ ". " ++ title))
          (td date)).
Proof.
  unfold html_for_act_resolution_appendix.
  rewrite re_search_digits_run by assumption.
  cbn [bind]. rewrite int_of_str_digits by assumption. cbn [bind].
  unfold table_row, td, anchor. f_equal. string_assoc.
Qed.

Lemma html_for_act_resolution_appendix_row_witness :
  html_for_act_resolution_appendix "u#page=7" "Resolution" "Joint resolution" "1850"
    "" ("No. " ++ "012" ++ ".")
  = Ok (table_row (td (anchor "u#page=7" "Resolution")) (td "")
          (td ("XII" ++ ". " ++ "Joint resolution")) (td "1850")).
Proof.
  apply (html_for_act_resolution_appendix_row
           "u#page=7" "Resolution" "Joint resolution" "1850" "" "No. " "012" ".");
    [reflexivity | reflexivity | discriminate | reflexivity | vm_compute; lia].
Defined.

(** C2, as the claim words it, fails: with the public/private value
    ["Private"] the second cell holds ["Private"] and is not empty. *)
Lemma html_for_act_resolution_appendix_second_cell_counterexample :
  html_for_act_resolution_appendix "u#page=7" "Act" "An Act" "1850" "Private" "Chap. 4"
  = Ok (table_row (td (anchor "u#page=7" "Act")) (td "Private")
          (td ("IV. An Act")) (td "1850"))
  /\ html_for_act_resolution_appendix "u#page=7" "Act" "An Act" "1850" "Private" "Chap. 4"
     <> Ok (table_row (td (anchor "u#page=7" "Act")) (td "")
              (td ("IV. An Act")) (td "1850")).
Proof. split; [reflexivity | vm_compute; discriminate]. Qed.

(** ** [generate_html]: one row *)

Lemma session_step_printed (session : string) (st : gen_state) :
  printed (session_step session st) = printed st.
Proof. unfold session_step. destruct (_ && _); reflexivity. Qed.

Lemma generate_html_row_segment (config : Config) (m : Maps) (st : gen_state) (row : Row) :
  generate_html_row config m st row
  = bind (row_segment config m row) (fun p => Ok (after_row st row p)).
Proof.
  unfold generate_html_row, row_segment, after_row.
  fold (row_statute_type row) (row_public_private row) (row_title row).
  fold (row_pdf_link config row). fold (row_generator config m row).
  destruct (row_generator config m row) as [g|];
    [destruct (truth (Some g))|];
    try (destruct (call g _ _ _ _ _ _); cbn [bind fst snd]);
    rewrite ?html_with_empty_cells_row; unfold fallback_segment;
    cbn [bind fst snd];
    rewrite ?session_step_printed, ?app_nil_r; reflexivity.
Qed.

Lemma generate_html_rows_cons (config : Config) (m : Maps) (st : gen_state)
  (row : Row) (rows : list Row) (p : string * list string) :
  row_segment config m row = Ok p ->
  generate_html_rows config m st (row :: rows)
  = generate_html_rows config m (after_row st row p) rows.
Proof.
  intros H. cbn [generate_html_rows]. rewrite generate_html_row_segment, H. reflexivity.
Qed.

Lemma generate_html_rows_raise (config : Config) (m : Maps) (st : gen_state)
  (row : Row) (rows : list Row) (e : exn) :
  row_segment config m row = Raise e ->
  generate_html_rows config m st (row :: rows) = Raise e.
Proof.
  intros H. cbn [generate_html_rows]. rewrite generate_html_row_segment, H. reflexivity.
Qed.

Lemma generate_html_rows_app (config : Config) (m : Maps) (rows1 rows2 : list Row) :
  forall st : gen_state,
    generate_html_rows config m st (rows1 ++ rows2)
    = bind (generate_html_rows config m st rows1)
        (fun st' => generate_html_rows config m st' rows2).
Proof.
  induction rows1 as [|row rows1 IH]; intros st; [reflexivity|].
  cbn [generate_html_rows app].
  destruct (generate_html_row config m st row) as [st'|e]; cbn [bind]; [apply IH | reflexivity].
Qed.

(** ** [generate_html]: the sessions *)

Lemma session_step_same (st : gen_state) :
  session_step (previous_session st) st = st.
Proof. unfold session_step. rewrite String.eqb_refl, andb_false_r. reflexivity. Qed.

Lemma session_step_eq (s : string) (st : gen_state) :
  s = previous_session st -> session_step s st = st.
Proof. intros ->. apply session_step_same. Qed.

Lemma session_step_change (s : string) (st : gen_state) :
  s <> previous_session st ->
  session_step s st
  = {| html_content :=
         (if str_truth s
          then (if str_truth (previous_session st)
                then html_content st ++ close_table else html_content st) ++ open_table s
          else (if str_truth (previous_session st)
                then html_content st ++ close_table else html_content st));
       previous_session := s;
       printed := printed st |}.
Proof.
  intros Hne. unfold session_step.
  apply String.eqb_neq in Hne. rewrite Hne. reflexivity.
Qed.

(** Rows of the session that is open are appended, and nothing else is. *)
Lemma generate_html_rows_same_session (config : Config) (m : Maps) (rows : list Row) :
  forall (st : gen_state) (q : string * list string),
    Forall (has_session (previous_session st)) rows ->
    segments config m rows = Ok q ->
    generate_html_rows config m st rows
    = Ok {| html_content := html_content st ++ fst q;
            previous_session := previous_session st;
            printed := printed st ++ snd q |}.
Proof.
  induction rows as [|row rows IH]; intros st q Hs Hq.
  - cbn in Hq. injection Hq as <-. cbn [generate_html_rows fst snd].
    rewrite append_nil_r, app_nil_r. now destruct st.
  - inversion Hs as [|r l Hrow Hrows]; subst. unfold has_session in Hrow.
    cbn [segments] in Hq.
    destruct (row_segment config m row) as [p|] eqn:Hp; [|discriminate].
    destruct (segments config m rows) as [q'|] eqn:Hq'; [|discriminate].
    cbn [bind] in Hq. injection Hq as <-.
    rewrite (generate_html_rows_cons _ _ _ _ _ _ Hp).
    unfold after_row. rewrite Hrow, session_step_same.
    rewrite (IH _ q'); [|assumption|reflexivity].
    cbn [html_content previous_session printed fst snd].
    now rewrite append_assoc, app_assoc.
Qed.

(** A run of rows of one session that is not empty and not the one
    before: the table before is closed if there is one, a table is
    opened, and the rows are appended. *)
Lemma generate_html_rows_new_session (config : Config) (m : Maps)
  (s : string) (row : Row) (rows : list Row) (st : gen_state) (q : string * list string) :
  s <> "" -> s <> previous_session st ->
  Forall (has_session s) (row :: rows) ->
  segments config m (row :: rows) = Ok q ->
  generate_html_rows config m st (row :: rows)
  = Ok {| html_content :=
            (if str_truth (previous_session st)
             then html_content st ++ close_table else html_content st)
            ++ open_table s ++ fst q;
          previous_session := s;
          printed := printed st ++ snd q |}.
Proof.
  intros Hne Hprev Hs Hq.
  inversion Hs as [|r l Hrow Hrows]; subst. unfold has_session in Hrow.
  cbn [segments] in Hq.
  destruct (row_segment config m row) as [p|] eqn:Hp; [|discriminate].
  destruct (segments config m rows) as [q'|] eqn:Hq'; [|discriminate].
  cbn [bind] in Hq. injection Hq as <-.
  rewrite (generate_html_rows_cons _ _ _ _ _ _ Hp).
  unfold after_row. rewrite Hrow.
  rewrite session_step_change by assumption.
  assert (Ht : str_truth s = true).
  { unfold str_truth. apply negb_true_iff. now apply String.eqb_neq. }
  rewrite Ht.
  rewrite (generate_html_rows_same_session config m rows _ q');
    [|assumption|assumption].
  cbn [html_content previous_session printed fst snd].
  f_equal. f_equal; [|now rewrite app_assoc].
  now rewrite !append_assoc.
Qed.

(** Two runs of rows, of two sessions that are not empty: two tables, one
    after the other, each with the rows of its session in their order,
    the second closed after the loop. *)
Lemma generate_html_two_sessions (config : Config) (m : Maps)
  (a b : string) (rowA rowB : Row) (rowsA rowsB : list Row)
  (qa qb : string * list string) :
  a <> "" -> b <> "" -> a <> b ->
  Forall (has_session a) (rowA :: rowsA) ->
  Forall (has_session b) (rowB :: rowsB) ->
  segments config m (rowA :: rowsA) = Ok qa ->
  segments config m (rowB :: rowsB) = Ok qb ->
  generate_html ((rowA :: rowsA) ++ (rowB :: rowsB)) config m
  = Ok (html_header config
        ++ open_table a ++ fst qa ++ close_table
        ++ open_table b ++ fst qb ++ "</tbody></table>").
Proof.
  intros Ha Hb Hab HA HB Hqa Hqb.
  unfold generate_html, generate_html_state.
  rewrite generate_html_rows_app.
  rewrite (generate_html_rows_new_session config m a rowA rowsA _ qa);
    [|assumption|cbn; congruence|assumption|assumption].
  cbn [bind].
  rewrite (generate_html_rows_new_session config m b rowB rowsB _ qb);
    [|assumption|cbn; congruence|assumption|assumption].
  cbn [bind initial_gen_state html_content previous_session printed].
  assert (Hta : str_truth a = true)
    by (unfold str_truth; apply negb_true_iff; now apply String.eqb_neq).
  assert (Htb : str_truth b = true)
    by (unfold str_truth; apply negb_true_iff; now apply String.eqb_neq).
  rewrite Hta, Htb. cbn [str_truth String.eqb negb html_content].
  f_equal. now rewrite !append_assoc.
Qed.

(** The sessions A, A, B, B, B when every row has a segment. *)
Lemma generate_html_AABBB (config : Config) (m : Maps)
  (r1 r2 r3 r4 r5 : Row) (p1 p2 p3 p4 p5 : string * list string) :
  Session r1 = CStr "A" -> Session r2 = CStr "A" ->
  Session r3 = CStr "B" -> Session r4 = CStr "B" -> Session r5 = CStr "B" ->
  row_segment config m r1 = Ok p1 -> row_segment config m r2 = Ok p2 ->
  row_segment config m r3 = Ok p3 -> row_segment config m r4 = Ok p4 ->
  row_segment config m r5 = Ok p5 ->
  generate_html [r1; r2; r3; r4; r5] config m
  = Ok (html_header config
        ++ open_table "A" ++ (fst p1 ++ fst p2) ++ close_table
        ++ open_table "B" ++ (fst p3 ++ fst p4 ++ fst p5) ++ "</tbody></table>").
Proof.
  intros S1 S2 S3 S4 S5 H1 H2 H3 H4 H5.
  change [r1; r2; r3; r4; r5] with ((r1 :: [r2]) ++ (r3 :: [r4; r5]))%list.
  rewrite (generate_html_two_sessions config m "A" "B" r1 r3 [r2] [r4; r5]
             (fst p1 ++ fst p2, (snd p1 ++ snd p2)%list)
             (fst p3 ++ fst p4 ++ fst p5, (snd p3 ++ snd p4 ++ snd p5)%list));
    try discriminate.
  - reflexivity.
  - repeat constructor; unfold has_session; [now rewrite S1 | now rewrite S2].
  - repeat constructor; unfold has_session; [now rewrite S3 | now rewrite S4 | now rewrite S5].
  - cbn [segments]. rewrite H1, H2. cbn [bind fst snd].
    now rewrite append_nil_r, app_nil_r.
  - cbn [segments]. rewrite H3, H4, H5. cbn [bind fst snd].
    now rewrite append_nil_r, app_nil_r.
Qed.

(** C5, on the code.  With the sessions A, A, B, B, B, a third row of a
    type formatted by [html_for_act_resolution_appendix] and no digit in
    its number/chapter makes [generate_html] raise [AttributeError]: no
    table is emitted.  The same rows with a digit there give the two
    tables. *)
Theorem generate_html_AABBB_raises :
  generate_html
    [ example_row (CStr "A") (CStr "Law") (CStr "1850") (CStr "Chap. 1");
      example_row (CStr "A") (CStr "Law") (CStr "1850") (CStr "Chap. 2");
      example_row (CStr "B") (CStr "Act") (CStr "1850") CNaN;
      example_row (CStr "B") (CStr "Law") (CStr "1851") (CStr "Chap. 3");
      example_row (CStr "B") (CStr "Law") (CStr "1851") (CStr "Chap. 4") ]
    example_config example_maps
  = Raise AttributeError.
Proof. reflexivity. Qed.

(** C4, on the code.  A row formatted by [html_for_act_resolution_appendix]
    whose number/chapter is missing is not skipped: [generate_html] raises
    [AttributeError] and the rows before and after it are lost with it.
    A row whose date is missing is not skipped either, and nothing is
    printed for it: it is formatted with the text [nan]. *)
Theorem generate_html_missing_field_not_skipped :
  generate_html
    [ example_row (CStr "A") (CStr "Law") (CStr "1850") (CStr "Chap. 1");
      example_row (CStr "A") (CStr "Act") (CStr "1850") CNaN;
      example_row (CStr "A") (CStr "Law") (CStr "1850") (CStr "Chap. 2") ]
    example_config example_maps
  = Raise AttributeError
  /\ generate_html_state
       [ example_row (CStr "A") (CStr "Law") CNaN (CStr "Chap. 1") ]
       example_config example_maps
     = Ok {| html_content :=
               html_header example_config ++ open_table "A"
               ++ table_row (td (anchor "pub.pdf#page=7" "Chap. 1")) (td "Public")
                    (td "T") (td "nan")
               ++ "</tbody></table>";
             previous_session := "A";
             printed := [] |}.
Proof. split; reflexivity. Qed.

(** No digit in the number/chapter: the formatter raises, for every row
    and whatever comes before or after it. *)
Lemma html_for_act_resolution_appendix_raises
  (pdf_link statute_type title date public_private number_chapter : string) :
  no_digit number_chapter = true ->
  html_for_act_resolution_appendix pdf_link statute_type title date public_private
    number_chapter = Raise AttributeError.
Proof.
  intros H. unfold html_for_act_resolution_appendix.
  now rewrite re_search_digits_none.
Qed.

(** C3, as the code has it.  A row whose session is the empty string
    opens no table.  When no table is open it closes none either and
    [previous_session] stays empty; when a table is open the row closes
    it, [previous_session] becomes empty, and the markup of the row comes
    after the closed table. *)
Theorem generate_html_row_empty_session
  (config : Config) (m : Maps) (st : gen_state) (row : Row)
  (Hs : str_of_cell (Session row) = "") :
  generate_html_row config m st row
  = bind (row_segment config m row) (fun p =>
      Ok {| html_content :=
              (if str_truth (previous_session st)
               then html_content st ++ close_table
               else html_content st) ++ fst p;
            previous_session := "";
            printed := printed st ++ snd p |}).
Proof.
  rewrite generate_html_row_segment.
  destruct (row_segment config m row) as [p|e]; [|reflexivity].
  cbn [bind]. unfold after_row. rewrite Hs. f_equal.
  destruct (String.eqb_spec "" (previous_session st)) as [Heq|Hne].
  - rewrite (session_step_eq "" st Heq), <- Heq. reflexivity.
  - rewrite session_step_change by assumption. reflexivity.
Qed.

Lemma generate_html_row_empty_session_witness :
  generate_html_row example_config example_maps
    {| html_content := "<table>"; previous_session := "A"; printed := [] |}
    (example_row (CStr "") (CStr "Law") (CStr "1850") (CStr "Chap. 1"))
  = Ok {| html_content :=
            ("<table>" ++ close_table)
            ++ table_row (td (anchor "pub.pdf#page=7" "Chap. 1")) (td "Public")
                 (td "T") (td "1850");
          previous_session := "";
          printed := [] |}.
Proof.
  apply (generate_html_row_empty_session example_config example_maps
           {| html_content := "<table>"; previous_session := "A"; printed := [] |}
           (example_row (CStr "") (CStr "Law") (CStr "1850") (CStr "Chap. 1"))).
  reflexivity.
Defined.

(** C3, as the claim words it, fails: after a row of session A, a row
    with an empty session closes the table of A, and its markup is
    outside of it; [previous_session] is empty at the end, so the table is
    not closed a second time. *)
Lemma generate_html_empty_session_counterexample :
  generate_html_state
    [ example_row (CStr "A") (CStr "Law") (CStr "1850") (CStr "Chap. 1");
      example_row (CStr "") (CStr "Law") (CStr "1850") (CStr "Chap. 2") ]
    example_config example_maps
  = Ok {| html_content :=
            html_header example_config ++ open_table "A"
            ++ table_row (td (anchor "pub.pdf#page=7" "Chap. 1")) (td "Public")
                 (td "T") (td "1850")
            ++ close_table
            ++ table_row (td (anchor "pub.pdf#page=7" "Chap. 2")) (td "Public")
                 (td "T") (td "1850");
          previous_session := "";
          printed := [] |}
  /\ generate_html_state
       [ example_row (CStr "A") (CStr "Law") (CStr "1850") (CStr "Chap. 1");
         example_row (CStr "") (CStr "Law") (CStr "1850") (CStr "Chap. 2") ]
       example_config example_maps
     <> Ok {| html_content :=
                html_header example_config ++ open_table "A"
                ++ table_row (td (anchor "pub.pdf#page=7" "Chap. 1")) (td "Public")
                     (td "T") (td "1850")
                ++ table_row (td (anchor "pub.pdf#page=7" "Chap. 2")) (td "Public")
                     (td "T") (td "1850")
                ++ "</tbody></table>";
              previous_session := "A";
              printed := [] |}.
Proof. split; [reflexivity | vm_compute; discriminate]. Qed.

(** A missing session is the text [nan] once [str] is applied, and
    [pd.isna] of a text is false: the row opens a table headed [nan]. *)
Lemma generate_html_missing_session_opens_table :
  generate_html_state
    [ example_row CNaN (CStr "Law") (CStr "1850") (CStr "Chap. 1") ]
    example_config example_maps
  = Ok {| html_content :=
            html_header example_config ++ open_table "nan"
            ++ table_row (td (anchor "pub.pdf#page=7" "Chap. 1")) (td "Public")
                 (td "T") (td "1850")
            ++ "</tbody></table>";
          previous_session := "nan";
          printed := [] |}.
Proof. reflexivity. Qed.




(** ** [str] and [int] on a row index *)

Lemma strip_all_space (s : string) : all_space s = true -> strip s = "".
Proof.
  unfold strip. induction s as [|c s IH]; intros H; [reflexivity|].
  simpl in H. apply andb_true_iff in H. destruct H as [Hc Hs].
  simpl. rewrite Hc. now apply IH.
Qed.


Lemma string_of_uint_digits (u : Decimal.uint) :
  all_digits (NilEmpty.string_of_uint u) = true.
Proof. induction u; simpl; auto. Qed.

Lemma string_of_uint_value (u : Decimal.uint) :
  all_digits (NilZero.string_of_uint u) = true
  /\ NilZero.string_of_uint u <> ""
  /\ decimal_value (NilZero.string_of_uint u) = Z.of_uint u.
Proof.
  assert (Hv : decimal_value (NilEmpty.string_of_uint u) = Z.of_uint u).
  { symmetry. apply of_uint_value. apply NilEmpty.usu. }
  pose proof (string_of_uint_digits u) as Hd.
  destruct u; (split; [exact Hd || reflexivity | split; [discriminate | exact Hv || reflexivity]]).
Qed.

(** [str] of an index is a run of digits that denotes it. *)
Lemma str_of_int_nonneg (z : Z) :
  0 <= z ->
  all_digits (str_of_int z) = true
  /\ str_of_int z <> ""
  /\ decimal_value (str_of_int z) = z.
Proof.
  intros Hz. unfold str_of_int.
  pose proof (DecimalZ.of_to z) as Hof.
  destruct z as [|p|p]; [| |lia].
  - repeat split. discriminate.
  - cbn [Z.to_int NilZero.string_of_int] in *.
    destruct (string_of_uint_value (Pos.to_uint p)) as (Hd & Hne & Hv).
    repeat split; [assumption | assumption |].
    rewrite Hv. exact Hof.
Qed.


Lemma int_of_str_raises (s : string) (e : exn) :
  int_of_str s = Raise e -> e = ValueError.
Proof.
  unfold int_of_str.
  destruct (match rstrip _ _ with "" => _ | String _ _ => _ end); [discriminate|].
  now intros [= <-].
Qed.

(** ** [get_last_audited_row] *)

(** C10.  When there is no checkpoint file, or when the checkpoint file
    is empty or holds white space only, [get_last_audited_row] returns 0
    and raises nothing; and an audit that starts from 0 skips no row: it
    is the loop over all the rows of the data frame, the first row
    first. *)
Theorem get_last_audited_row_fresh
  (config : Config) (fs : gmap string file) (file_name : string)
  (H : fs !! checkpoint_path config file_name = None
       \/ exists text : string,
            fs !! checkpoint_path config file_name = Some (FText text)
            /\ all_space text = true) :
  get_last_audited_row config fs file_name = Ok 0
  /\ forall (stdin : list string) (st : St) (row : Row) (rows : list Row),
       df st = row :: rows ->
       audit_process config 0 stdin st
       = match while_True config 0 row stdin st with
         | (Ok Break, stdin', st') => audit_rows config 0 (iterrows_from 1 rows) stdin' st'
         | (Ok (Return b), stdin', st') => (Ok b, stdin', st')
         | (Raise e, stdin', st') => (Raise e, stdin', st')
         end.
Proof.
  split.
  - unfold get_last_audited_row.
    destruct H as [-> | (text & -> & Hsp)]; [reflexivity|].
    now rewrite strip_all_space.
  - intros stdin st row rows Hdf. unfold audit_process, iterrows.
    rewrite Hdf. reflexivity.
Qed.

(** ** The loop of one row *)

Lemma while_True_spec (config : Config) (idx : nat) (row : Row) :
  forall (n : nat) (stdin : list string) (st : St),
    (length stdin <= n)%nat ->
    while_True_post config idx row st (while_True config idx row stdin st).
Proof.
  induction n as [|n IH]; intros stdin st Hn.
  - destruct stdin; [|simpl in Hn; lia].
    cbn. split; [exists []; reflexivity | auto].
  - destruct stdin as [|user_input stdin1].
    { cbn. split; [exists []; reflexivity | auto]. }
    cbn [while_True].
    destruct (String.eqb (lower user_input) "exit").
    { cbn. split; [eexists; rewrite <- !app_assoc; reflexivity | auto]. }
    destruct (String.eqb (lower user_input) "y").
    { cbn. split; [exists []; reflexivity | auto]. }
    destruct (String.eqb (lower user_input) "n").
    + destruct stdin1 as [|correct_pdf_start stdin2].
      { cbn. split; [eexists; rewrite <- !app_assoc; reflexivity | auto]. }
      destruct (String.eqb (lower correct_pdf_start) "exit").
      { cbn. split; [eexists; rewrite <- !app_assoc; reflexivity | auto]. }
      assert (Hagain :
        while_True_post config idx row st
          (while_True config idx row stdin2
             (log (log (log st [Cleared; Prompted (confirm_prompt row)])
                     [Prompted (correction_prompt row)])
                [Printed "Invalid input. Please enter a valid PDF Start value (an integer)."]))).
      { match goal with
        | |- while_True_post _ _ _ _ (while_True _ _ _ ?s ?t) =>
            pose proof (IH s t) as IHs
        end.
        simpl in Hn. specialize (IHs ltac:(lia)).
        unfold while_True_post in *.
        destruct (while_True config idx row stdin2 _) as [[r s'] st'].
        destruct IHs as [[es Hes] Hr]. split; [|exact Hr].
        eexists. rewrite Hes. cbn. rewrite <- !app_assoc. reflexivity. }
      destruct (int_of_str correct_pdf_start) as [v|e] eqn:Ev.
      { cbn [df log].
        destruct (at_set (df st) idx v) as [[]|e] eqn:Es.
        - cbn. split; [eexists; rewrite <- !app_assoc; reflexivity | eauto].
        - destruct e; try exact Hagain;
            (cbn; split; [eexists; rewrite <- !app_assoc; reflexivity|];
             split; [right; split; [discriminate | eauto] | auto]). }
      apply int_of_str_raises in Ev. subst e. exact Hagain.
    + match goal with
      | |- while_True_post _ _ _ _ (while_True _ _ _ ?s ?t) =>
          pose proof (IH s t) as IHs
      end.
      simpl in Hn. specialize (IHs ltac:(lia)).
      unfold while_True_post in *.
      destruct (while_True config idx row stdin1 _) as [[r s'] st'].
      destruct IHs as [[es Hes] Hr]. split; [|exact Hr].
      eexists. rewrite Hes. cbn. rewrite <- !app_assoc. reflexivity.
Qed.

Lemma while_True_post_holds (config : Config) (idx : nat) (row : Row)
  (stdin : list string) (st : St) :
  while_True_post config idx row st (while_True config idx row stdin st).
Proof. apply (while_True_spec config idx row (length stdin)). lia. Qed.

(** ** The loop over the rows *)


(** The rows before the checkpoint are passed over: no prompt, no input
    read, no change. *)
Lemma audit_rows_skip (config : Config) (k : nat) (stdin : list string) (st : St)
  (d : list Row) :
  forall i : nat,
    (i <= k)%nat ->
    audit_rows config (Z.of_nat k) (iterrows_from i d) stdin st
    = audit_rows config (Z.of_nat k) (iterrows_from k (drop (k - i) d)) stdin st.
Proof.
  induction d as [|r d IH]; intros i Hi.
  - now rewrite drop_nil.
  - destruct (Nat.eq_dec i k) as [->|Hne].
    + now rewrite Nat.sub_diag.
    + cbn [iterrows_from audit_rows].
      destruct (Z.ltb_spec (Z.of_nat i) (Z.of_nat k)); [|lia].
      rewrite IH by lia.
      replace (k - i)%nat with (S (k - S i)) by lia. reflexivity.
Qed.





(** The word [exit], in any case, at the first prompt or at the prompt
    of the correction, ends the loop by [return False] after the pause. *)
Lemma while_True_exit (config : Config) (idx : nat) (row : Row)
  (user_input : string) (stdin : list string) (st : St) :
  lower user_input = "exit" ->
  while_True config idx row (user_input :: stdin) st
  = (Ok (Return false), stdin,
     pause config idx (log st [Cleared; Prompted (confirm_prompt row)])).
Proof. intros H. cbn [while_True]. now rewrite H. Qed.

Lemma while_True_exit_correction (config : Config) (idx : nat) (row : Row)
  (user_input correct_pdf_start : string) (stdin : list string) (st : St) :
  lower user_input = "n" -> lower correct_pdf_start = "exit" ->
  while_True config idx row (user_input :: correct_pdf_start :: stdin) st
  = (Ok (Return false), stdin,
     pause config idx
       (log (log st [Cleared; Prompted (confirm_prompt row)])
          [Prompted (correction_prompt row)])).
Proof. intros H1 H2. cbn [while_True]. now rewrite H1, H2. Qed.

Lemma iterrows_from_elem (d : list Row) :
  forall (i k : nat) (row : Row),
    (k, row) ∈ iterrows_from i d -> (i <= k < i + length d)%nat.
Proof.
  induction d as [|r d IH]; intros i k row H; cbn [iterrows_from] in H.
  - now apply elem_of_nil in H.
  - apply elem_of_cons in H. destruct H as [[= -> ->]|H]; cbn [length]; [lia|].
    apply IH in H. lia.
Qed.

Lemma audit_rows_files (config : Config) (last : Z) (rows : list (nat * Row)) :
  forall (stdin : list string) (st : St),
    match audit_rows config last rows stdin st with
    | (Ok true, _, st') => files st' = files st
    | (Ok false, _, st') =>
        exists (k : nat) (row : Row),
          (k, row) ∈ rows /\ last <= Z.of_nat k
          /\ files st' = <[checkpoint_path config (EXCEL_FILE config)
                             := FText (str_of_int (Z.of_nat k))]> (files st)
    | (Raise e, _, st') =>
        files st' = files st
        /\ (e = EOFError
            \/ e <> ValueError /\ exists d idx v, at_set d idx v = Raise e)
    end.
Proof.
  induction rows as [|[idx row] rows IH]; intros stdin st; [reflexivity|].
  cbn [audit_rows].
  destruct (Z.ltb_spec (Z.of_nat idx) last) as [Hlt|Hge].
  - specialize (IH stdin st).
    destruct (audit_rows config last rows stdin st) as [[[[|]|e] s'] st']; auto.
    destruct IH as (k & r & Hin & Hk & Hf). exists k, r.
    split; [now apply list_elem_of_further | auto].
  - pose proof (while_True_post_holds config idx row stdin st) as Hpost.
    unfold while_True_post in Hpost.
    destruct (while_True config idx row stdin st) as [[[[|b]|e] s1] st1];
      destruct Hpost as [_ Hpost].
    + destruct Hpost as [Hf1 _]. specialize (IH s1 st1).
      destruct (audit_rows config last rows s1 st1) as [[[[|]|e] s'] st'].
      * congruence.
      * destruct IH as (k & r & Hin & Hk & Hf). exists k, r.
        split; [now apply list_elem_of_further | split; [exact Hk | congruence]].
      * destruct IH as [Hf He]. split; [congruence | exact He].
    + destruct Hpost as (-> & Hf & _). exists idx, row.
      split; [apply list_elem_of_here | auto].
    + destruct Hpost as ([->|[Hne [v Hv]]] & Hf & _); split; eauto 7.
Qed.




(** C8, as the code has it.  At the loop of row [idx], the answer [n]
    (in any case) is followed by a text that is not [exit] and that [int]
    reads as [v].  When the column takes [v], the loop of the row ends
    with the PDF Start of row [idx] set to [v]: the other fields of that
    row, every other row, the number of rows and the files are as before.
    When the store raises a [ValueError], the row is asked again, and
    when it raises another exception the loop ends with it: in both
    cases the data frame and the files are as they were. *)
Theorem audit_correction_frame
  (config : Config) (idx : nat) (row : Row)
  (user_input correct_pdf_start : string) (v : Z) (stdin : list string) (st : St)
  (Hn : lower user_input = "n")
  (Hexit : lower correct_pdf_start <> "exit")
  (Hlimit : (String.length correct_pdf_start <= int_max_str_digits)%nat)
  (Hint : int_of_str correct_pdf_start = Ok v) :
  let asked :=
    log (log st [Cleared; Prompted (confirm_prompt row)]) [Prompted (correction_prompt row)] in
  match at_set (df st) idx v with
  | Ok _ =>
      exists st' : St,
        while_True config idx row (user_input :: correct_pdf_start :: stdin) st
        = (Ok Break, stdin, st')
        /\ files st' = files st
        /\ length (df st') = length (df st)
        /\ (forall j : nat, j <> idx -> df st' !! j = df st !! j)
        /\ (forall r : Row,
              df st !! idx = Some r ->
              exists r' : Row,
                df st' !! idx = Some r'
                /\ PDF_Start r' = CInt v
                /\ Session r' = Session r /\ Type_ r' = Type_ r
                /\ Public_Private r' = Public_Private r /\ Title r' = Title r
                /\ Date r' = Date r /\ Number_Chapter r' = Number_Chapter r)
  | Raise ValueError =>
      while_True config idx row (user_input :: correct_pdf_start :: stdin) st
      = while_True config idx row stdin
          (log asked
             [Printed "Invalid input. Please enter a valid PDF Start value (an integer)."])
      /\ df asked = df st /\ files asked = files st
  | Raise e =>
      while_True config idx row (user_input :: correct_pdf_start :: stdin) st
      = (Raise e, stdin, asked)
      /\ df asked = df st /\ files asked = files st
  end.
Proof.
  clear Hlimit. cbv zeta.
  assert (Hrun :
    while_True config idx row (user_input :: correct_pdf_start :: stdin) st
    = let asked :=
        log (log st [Cleared; Prompted (confirm_prompt row)])
          [Prompted (correction_prompt row)] in
      match at_set (df st) idx v with
      | Ok _ => (Ok Break, stdin, set_df asked (alter (set_PDF_Start (CInt v)) idx (df st)))
      | Raise ValueError =>
          while_True config idx row stdin
            (log asked
               [Printed "Invalid input. Please enter a valid PDF Start value (an integer)."])
      | Raise e => (Raise e, stdin, asked)
      end).
  { cbn [while_True]. rewrite Hn. cbn [String.eqb Ascii.eqb Bool.eqb].
    apply String.eqb_neq in Hexit. rewrite Hexit, Hint. reflexivity. }
  cbv zeta in Hrun.
  destruct (at_set (df st) idx v) as [[]|e].
  - eexists. split; [exact Hrun|].
    cbn [files df set_df log]. split; [reflexivity|].
    split; [apply length_alter|].
    split.
    + intros j Hj. apply list_lookup_alter_ne. congruence.
    + intros r Hr. exists (set_PDF_Start (CInt v) r).
      split; [|repeat split].
      rewrite list_lookup_alter_eq, Hr. reflexivity.
  - destruct e; (split; [exact Hrun | split; reflexivity]).
Qed.

(** ** [main] and the HTML output file *)

(** C9, as the code has it.  When the audited file is there and a file
    is there at the path of the HTML output, [main] prints that the HTML
    output exists and is to be deleted or backed up, leaves with
    [sys.exit()], and no file is written. *)
Theorem main_refuses_existing_html
  (config : Config) (m : Maps) (stdin : list string) (st : St) (a h : file)
  (Haudited : files st !! audited_file_path config = Some a)
  (Hhtml : files st !! html_output_path config = Some h) :
  main (Some config) m stdin st
  = (Raise SystemExit,
     log st
       [ Printed (nl ++ "Audited file '" ++ audited_file_path config ++ "' already exists." ++ nl);
         Printed (nl ++ "HTML output '" ++ html_output_path config
                  ++ "' already exists. If you wish to regenerate, please delete or backup the existing file."
                  ++ nl) ])
  /\ files (snd (main (Some config) m stdin st)) = files st.
Proof.
  assert (Hmain : main (Some config) m stdin st
                  = (Raise SystemExit,
                     log st
                       [ Printed (nl ++ "Audited file '" ++ audited_file_path config
                                  ++ "' already exists." ++ nl);
                         Printed (nl ++ "HTML output '" ++ html_output_path config
                                  ++ "' already exists. If you wish to regenerate, please delete or backup the existing file."
                                  ++ nl) ])).
  { unfold main. fold (audited_file_path config) (html_output_path config).
    rewrite Haudited. cbn [files log]. rewrite Hhtml.
    unfold log. cbn [df files console]. now rewrite <- app_assoc. }
  split; [exact Hmain | now rewrite Hmain].
Qed.

(** ** More of [arabic_to_roman] *)

(** X1.  Zero and the negative integers keep every loop from running. *)
Theorem arabic_to_roman_nonpositive (n : Z) (H : n <= 0) :
  arabic_to_roman n = "".
Proof.
  rewrite (arabic_to_roman_greedy n 0) by lia. reflexivity.
Qed.

Lemma arabic_to_roman_nonpositive_witness : arabic_to_roman (-7) = "".
Proof. apply (arabic_to_roman_nonpositive (-7)). lia. Defined.

(** From 1000 on the numeral starts with an M for each thousand. *)
Lemma arabic_to_roman_thousand (n : Z) :
  0 <= n -> arabic_to_roman (n + 1000) = "M" ++ arabic_to_roman n.
Proof.
  intros Hn.
  rewrite (arabic_to_roman_greedy_code (n + 1000) (S (Z.to_nat (n + 1000)))) by lia.
  cbn [greedy].
  destruct (Z.leb_spec (n + 1000) 0); [lia|].
  unfold largest_applicable, numeral_map. cbn [find fst].
  destruct (Z.leb_spec 1000 (n + 1000)); [|lia].
  f_equal. replace (n + 1000 - 1000) with n by lia.
  symmetry. apply arabic_to_roman_greedy_code. lia.
Qed.

Lemma roman_values_bound (s : string) :
  forall vs : list Z, roman_values s = Some vs -> Forall (fun v => v <= 1000) vs.
Proof.
  induction s as [|c s IH]; intros vs H.
  - injection H as <-. constructor.
  - cbn [roman_values] in H.
    destruct (roman_value c) as [v|] eqn:Ev; [|discriminate].
    destruct (roman_values s) as [vs'|]; [|discriminate].
    injection H as <-. constructor; [|now apply IH].
    unfold roman_value in Ev.
    repeat match type of Ev with
           | (if ?b then _ else _) = _ => destruct b; [injection Ev as <-; lia|]
           end.
    discriminate.
Qed.

Lemma parse_roman_M (s : string) (v : Z) :
  parse_roman s = Some v -> parse_roman ("M" ++ s) = Some (1000 + v).
Proof.
  unfold parse_roman. rewrite append_cons, append_nil_l. cbn [roman_values].
  destruct (roman_values s) as [vs|] eqn:E; [|discriminate].
  change (roman_value "M") with (Some 1000).
  cbn [option_map]. intros [= <-]. f_equal.
  destruct vs as [|w vs]; [reflexivity|].
  apply roman_values_bound in E. inversion E; subst.
  cbn [sum_subtractive]. destruct (Z.ltb_spec 1000 w); [lia | reflexivity].
Qed.

Lemma parse_arabic_to_roman (k : nat) :
  forall n : Z, 0 <= n < 4000 + 1000 * Z.of_nat k ->
    parse_roman (arabic_to_roman n) = Some n.
Proof.
  induction k as [|k IH]; intros n Hn.
  - destruct (Z.eq_dec n 0) as [->|Hne]; [reflexivity|].
    pose proof (roundtrip_ok_spec n ltac:(lia)) as R. unfold roundtrip_ok in R.
    apply andb_true_iff in R. destruct R as [_ R].
    destruct (parse_roman (arabic_to_roman n)) as [v|]; [|discriminate].
    apply Z.eqb_eq in R. now subst.
  - destruct (Z.lt_ge_cases n 1000) as [Hlt|Hge]; [apply IH; lia|].
    replace n with ((n - 1000) + 1000) at 1 by lia.
    rewrite arabic_to_roman_thousand by lia.
    rewrite (parse_roman_M _ (n - 1000)) by (apply IH; lia).
    f_equal. lia.
Qed.

(** X2.  The round trip of the numerals has no upper bound: a standard parser
    reads every integer from 0 on back from its numeral, so two such
    integers never share a numeral. *)
Theorem arabic_to_roman_roundtrip_unbounded (n m : Z) (Hn : 0 <= n) (Hm : 0 <= m) :
  parse_roman (arabic_to_roman n) = Some n
  /\ (arabic_to_roman n = arabic_to_roman m -> n = m).
Proof.
  assert (P : forall a, 0 <= a -> parse_roman (arabic_to_roman a) = Some a).
  { intros a Ha. apply (parse_arabic_to_roman (Z.to_nat a)). lia. }
  split; [now apply P|].
  intros E. pose proof (P n Hn) as Pn. rewrite E, (P m Hm) in Pn. congruence.
Qed.

Lemma arabic_to_roman_roundtrip_unbounded_witness :
  parse_roman (arabic_to_roman 123456) = Some 123456.
Proof.
  apply (arabic_to_roman_roundtrip_unbounded 123456 0); lia.
Defined.

(** ** More of the formatters *)

Lemma take_digits_split (s : string) :
  exists post : string,
    s = take_digits s ++ post
    /\ all_digits (take_digits s) = true
    /\ starts_with_digit post = false.
Proof.
  induction s as [|c s (post & Hs & Hd & Hp)].
  - exists "". repeat split.
  - cbn [take_digits]. destruct (is_digit c) eqn:Hc.
    + exists post. rewrite append_cons, <- Hs. cbn [all_digits]. rewrite Hc, Hd. auto.
    + exists (String c s). cbn [starts_with_digit]. auto.
Qed.

(** What [re.search(r"\d+", s)] finds is the first run of digits of [s],
    as far as it goes. *)
Lemma re_search_digits_some (s d : string) :
  re_search_digits s = Some d ->
  exists pre post : string,
    s = pre ++ d ++ post
    /\ no_digit pre = true /\ all_digits d = true /\ d <> ""
    /\ starts_with_digit post = false.
Proof.
  induction s as [|c s IH]; intros H; [discriminate|].
  cbn [re_search_digits] in H. destruct (is_digit c) eqn:Hc.
  - injection H as <-.
    destruct (take_digits_split (String c s)) as (post & Hs & Hd & Hp).
    exists "", post. rewrite append_nil_l. repeat split; auto.
    cbn [take_digits]. rewrite Hc. discriminate.
  - destruct (IH H) as (pre & post & Hs & Hpre & Hd & Hne & Hp).
    exists (String c pre), post. rewrite append_cons, <- Hs.
    cbn [no_digit]. rewrite Hc, Hpre. auto.
Qed.

Lemma re_search_digits_none_inv (s : string) :
  re_search_digits s = None -> no_digit s = true.
Proof.
  induction s as [|c s IH]; intros H; [reflexivity|].
  cbn [re_search_digits] in H. cbn [no_digit].
  destruct (is_digit c); [discriminate|]. now rewrite IH.
Qed.

(** X3.  The act/resolution/appendix formatter on every number/chapter
    of at most 4300 characters, so that no run of digits in it is longer
    than the interpreter converts.  Without a digit in the number/chapter
    it raises [AttributeError]; with one it returns the row whose title
    starts with the Roman numeral of the first run of digits. *)
Theorem html_for_act_resolution_appendix_total
  (pdf_link statute_type title date public_private number_chapter : string)
  (Hlimit : (String.length number_chapter <= int_max_str_digits)%nat) :
  (no_digit number_chapter = true
   /\ html_for_act_resolution_appendix pdf_link statute_type title date public_private
        number_chapter = Raise AttributeError)
  \/ (exists pre digits post : string,
        number_chapter = pre ++ digits ++ post
        /\ no_digit pre = true /\ all_digits digits = true /\ digits <> ""
        /\ starts_with_digit post = false
        /\ html_for_act_resolution_appendix pdf_link statute_type title date public_private
             number_chapter
           = Ok (table_row (td (anchor pdf_link statute_type))
                   (td public_private)
                   (td (arabic_to_roman (decimal_value digits) ++ ". " ++ title))
                   (td date))).
Proof.
  destruct (re_search_digits number_chapter) as [d|] eqn:E.
  - right. destruct (re_search_digits_some _ _ E) as (pre & post & Hs & Hpre & Hd & Hne & Hp).
    exists pre, d, post. repeat split; auto.
    unfold html_for_act_resolution_appendix. rewrite E. cbn [bind].
    rewrite int_of_str_digits by assumption. cbn [bind].
    unfold table_row, td, anchor. f_equal. string_assoc.
  - left. split; [now apply re_search_digits_none_inv|].
    unfold html_for_act_resolution_appendix. now rewrite E.
Qed.

Lemma html_for_act_resolution_appendix_total_witness :
  no_digit "Appendix" = true
  /\ html_for_act_resolution_appendix "u#page=7" "Appendix" "Treaties" "1850" "" "Appendix"
     = Raise AttributeError.
Proof.
  destruct (html_for_act_resolution_appendix_total
              "u#page=7" "Appendix" "Treaties" "1850" "" "Appendix") as [H|H].
  - vm_compute. lia.
  - exact H.
  - destruct H as (pre & digits & post & _ & _ & _ & _ & _ & H). discriminate H.
Defined.

Lemma html_for_act_resolution_appendix_raise_inv
  (pdf_link statute_type title date public_private number_chapter : string) (e : exn) :
  html_for_act_resolution_appendix pdf_link statute_type title date public_private
    number_chapter = Raise e -> e = AttributeError.
Proof.
  unfold html_for_act_resolution_appendix.
  destruct (re_search_digits number_chapter) as [d|] eqn:E; cbn [bind]; [|congruence].
  destruct (re_search_digits_some _ _ E) as (_ & _ & _ & _ & Hd & Hne & _).
  rewrite int_of_str_digits by assumption. discriminate.
Qed.

(** ** More of [generate_html] *)

Lemma globals_formatter (config : Config) (m : Maps) (name : string) (f : generator) :
  formatter_of_name name = Some f -> globals config m !! name = Some (GGenerator f).
Proof.
  unfold formatter_of_name.
  repeat match goal with
         | |- (if String.eqb ?a ?b then _ else _) = _ -> _ =>
             destruct (String.eqb_spec a b) as [->|_];
             [intros [= <-]; reflexivity|]
         end.
  discriminate.
Qed.

(** X4.  Dispatch by name.  A type whose entry in the table of generators is
    the name of one of the six formatters is formatted by the function of
    that name, on the link, type, title, date, public/private value and
    number/chapter of the row, and no diagnostic is printed. *)
Theorem row_segment_dispatch
  (config : Config) (m : Maps) (row : Row) (name : string) (f : generator)
  (Hmap : map_html_generators m (row_statute_type row) = Some name)
  (Hname : formatter_of_name name = Some f) :
  row_segment config m row
  = bind (f (row_pdf_link config row) (row_statute_type row) (row_title row)
            (str_of_cell (Date row)) (row_public_private row)
            (str_of_cell (Number_Chapter row)))
      (fun seg => Ok (seg, []))
  /\ forall st : gen_state,
       generate_html_row config m st row
       = bind (f (row_pdf_link config row) (row_statute_type row) (row_title row)
                 (str_of_cell (Date row)) (row_public_private row)
                 (str_of_cell (Number_Chapter row)))
           (fun seg => Ok (after_row st row (seg, []))).
Proof.
  assert (Hseg : row_segment config m row
                 = bind (f (row_pdf_link config row) (row_statute_type row) (row_title row)
                           (str_of_cell (Date row)) (row_public_private row)
                           (str_of_cell (Number_Chapter row)))
                     (fun seg => Ok (seg, []))).
  { unfold row_segment, row_generator.
    rewrite Hmap, (globals_formatter config m name f Hname). reflexivity. }
  split; [exact Hseg|].
  intros st. rewrite generate_html_row_segment, Hseg.
  destruct (f _ _ _ _ _ _); reflexivity.
Qed.

Lemma row_segment_dispatch_witness :
  row_segment example_config
    {| header_mappings := ∅; statute_mappings := ∅;
       html_generator_mappings := {[ "Ordinance" := "html_for_articles_ordinance" ]} |}
    (example_row (CStr "A") (CStr " Ordinance ") (CStr "1787") CNaN)
  = Ok (table_row (td (anchor "pub.pdf#page=7" "Ordinance")) (td "") (td "T") (td ""), []).
Proof.
  apply (row_segment_dispatch example_config
           {| header_mappings := ∅; statute_mappings := ∅;
              html_generator_mappings := {[ "Ordinance" := "html_for_articles_ordinance" ]} |}
           (example_row (CStr "A") (CStr " Ordinance ") (CStr "1787") CNaN)
           "html_for_articles_ordinance" html_for_articles_ordinance);
    reflexivity.
Defined.

(** Every value of [globals] is one of the six formatters, another
    callable, or an object. *)
Lemma globals_generator (config : Config) (m : Maps) (name : string) (g : generator) :
  globals config m !! name = Some (GGenerator g) ->
  g = html_for_law \/ g = html_for_act_resolution_appendix \/ g = generic_html_generator
  \/ g = html_for_articles_ordinance \/ g = html_for_special_pages
  \/ g = html_with_empty_cells.
Proof.
  unfold globals. intros H. apply elem_of_list_to_map_2 in H.
  repeat (apply elem_of_cons in H; destruct H as [H|H];
          [inversion H; subst; auto 10|]).
  now apply elem_of_nil in H.
Qed.

Lemma row_segment_raise (config : Config) (m : Maps) (row : Row) (e : exn) :
  row_segment config m row = Raise e -> e = AttributeError \/ e = TypeError.
Proof.
  unfold row_segment.
  destruct (row_generator config m row) as [g|] eqn:Eg; [|discriminate].
  destruct (truth (Some g)); [|discriminate].
  destruct g as [f| |b]; cbn [call bind]; try (intros [= <-]; now right).
  unfold row_generator in Eg.
  destruct (map_html_generators m (row_statute_type row)) as [name|]; [|discriminate].
  destruct (globals_generator config m name f Eg) as [-> | [-> | [-> | [-> | [-> | ->]]]]];
    try discriminate.
  destruct (html_for_act_resolution_appendix _ _ _ _ _ _) as [seg|e'] eqn:E; [discriminate|].
  apply html_for_act_resolution_appendix_raise_inv in E. subst e'.
  cbn [bind]. intros [= <-]. now left.
Qed.

Lemma session_step_grows (session : string) (st : gen_state) :
  exists t : string, html_content (session_step session st) = html_content st ++ t.
Proof.
  unfold session_step. destruct (_ && _); [|exists ""; now rewrite append_nil_r].
  cbn [html_content].
  destruct (str_truth (previous_session st)), (str_truth session);
    eexists; rewrite ?append_assoc; try reflexivity.
  now rewrite append_nil_r.
Qed.

Lemma generate_html_rows_outcome (config : Config) (m : Maps) (rows : list Row) :
  forall st : gen_state,
    match generate_html_rows config m st rows with
    | Ok st' => exists t : string, html_content st' = html_content st ++ t
    | Raise e => e = AttributeError \/ e = TypeError
    end.
Proof.
  induction rows as [|row rows IH]; intros st.
  - exists "". cbn. now rewrite append_nil_r.
  - destruct (row_segment config m row) as [p|e] eqn:Hp.
    + rewrite (generate_html_rows_cons _ _ _ _ _ _ Hp).
      specialize (IH (after_row st row p)).
      destruct (generate_html_rows config m (after_row st row p) rows) as [st'|e]; [|exact IH].
      destruct IH as [t Ht]. rewrite Ht. unfold after_row. cbn [html_content].
      destruct (session_step_grows (str_of_cell (Session row)) st) as [u ->].
      eexists. rewrite !append_assoc. reflexivity.
    + rewrite (generate_html_rows_raise _ _ _ _ _ _ Hp).
      now apply row_segment_raise in Hp.
Qed.

(** X5.  What [generate_html] can do on a frame that has the columns
    the loop indexes, with any configuration and tables, when no
    number/chapter is longer than 4300 characters (so that no run of
    digits is longer than the interpreter converts).  When it returns, the
    text starts with the header of the congress; when it raises, it is
    [AttributeError] (a formatter found no digit) or [TypeError] (a mapped
    name bound to something that is no formatter). *)
Theorem generate_html_outcome (rows : list Row) (config : Config) (m : Maps)
  (Hlimit : Forall (fun row =>
              (String.length (str_of_cell (Number_Chapter row)) <= int_max_str_digits)%nat)
              rows) :
  match generate_html rows config m with
  | Ok html => exists t : string, html = html_header config ++ t
  | Raise e => e = AttributeError \/ e = TypeError
  end.
Proof.
  clear Hlimit.
  unfold generate_html, generate_html_state.
  pose proof (generate_html_rows_outcome config m rows (initial_gen_state config)) as H.
  destruct (generate_html_rows config m (initial_gen_state config) rows) as [st|e];
    cbn [bind]; [|exact H].
  destruct H as [t Ht]. cbn [initial_gen_state html_content] in Ht.
  destruct (str_truth (previous_session st)); cbn [html_content]; rewrite Ht.
  - eexists. rewrite append_assoc. reflexivity.
  - eauto.
Qed.

Lemma generate_html_outcome_witness :
  exists t : string,
    generate_html [ example_row (CStr "A") (CStr "Law") (CStr "1850") (CStr "Chap. 1") ]
      example_config example_maps
    = Ok (html_header example_config ++ t).
Proof.
  pose proof (generate_html_outcome
                [ example_row (CStr "A") (CStr "Law") (CStr "1850") (CStr "Chap. 1") ]
                example_config example_maps) as H.
  assert (Hl : Forall (fun row =>
                 (String.length (str_of_cell (Number_Chapter row)) <= int_max_str_digits)%nat)
                 [ example_row (CStr "A") (CStr "Law") (CStr "1850") (CStr "Chap. 1") ]).
  { constructor; [vm_compute; lia | constructor]. }
  specialize (H Hl).
  destruct (generate_html _ example_config example_maps) as [html|e] eqn:E.
  - destruct H as [t ->]. exists t. reflexivity.
  - exfalso. vm_compute in E. discriminate E.
Defined.

(** ** [generate_html]: any number of sessions *)

Lemma generate_html_rows_run (config : Config) (m : Maps) (rows : list Row) :
  forall st : gen_state,
    Forall (has_session (previous_session st)) rows ->
    generate_html_rows config m st rows
    = bind (segments config m rows) (fun q =>
        Ok {| html_content := html_content st ++ fst q;
              previous_session := previous_session st;
              printed := printed st ++ snd q |}).
Proof.
  induction rows as [|row rows IH]; intros st Hs.
  - cbn. rewrite append_nil_r, app_nil_r. now destruct st.
  - inversion Hs as [|r l Hrow Hrows]; subst. unfold has_session in Hrow.
    cbn [generate_html_rows segments]. rewrite generate_html_row_segment.
    destruct (row_segment config m row) as [p|e]; [|reflexivity].
    cbn [bind]. unfold after_row. rewrite Hrow, session_step_same.
    rewrite IH by assumption.
    destruct (segments config m rows) as [q|e]; [|reflexivity].
    cbn [bind html_content previous_session printed fst snd].
    now rewrite append_assoc, app_assoc.
Qed.

Lemma generate_html_rows_new_run (config : Config) (m : Maps)
  (s : string) (rows : list Row) (st : gen_state) :
  s <> "" -> s <> previous_session st -> rows <> [] ->
  Forall (has_session s) rows ->
  generate_html_rows config m st rows
  = bind (segments config m rows) (fun q =>
      Ok {| html_content :=
              html_content st
              ++ (if str_truth (previous_session st) then close_table else "")
              ++ open_table s ++ fst q;
            previous_session := s;
            printed := printed st ++ snd q |}).
Proof.
  intros Hne Hprev Hrows Hs.
  destruct rows as [|row rows]; [congruence|].
  inversion Hs as [|r l Hrow Hrest]; subst. unfold has_session in Hrow.
  cbn [generate_html_rows segments]. rewrite generate_html_row_segment.
  destruct (row_segment config m row) as [p|e]; [|reflexivity].
  cbn [bind]. unfold after_row. rewrite Hrow.
  rewrite session_step_change by assumption.
  assert (Ht : str_truth s = true).
  { unfold str_truth. apply negb_true_iff. now apply String.eqb_neq. }
  rewrite Ht.
  rewrite generate_html_rows_run by assumption.
  destruct (segments config m rows) as [q|e]; [|reflexivity].
  cbn [bind html_content previous_session printed fst snd].
  f_equal. f_equal; [|now rewrite app_assoc].
  destruct (str_truth (previous_session st)); now rewrite !append_assoc.
Qed.

Lemma generate_html_rows_groups (config : Config) (m : Maps)
  (gs : list (string * list Row)) :
  forall st : gen_state,
    well_grouped (previous_session st) gs ->
    generate_html_rows config m st (rows_of gs)
    = bind (groups_markup config m (str_truth (previous_session st)) gs) (fun t =>
        Ok {| html_content := html_content st ++ fst t;
              previous_session := last_session (previous_session st) gs;
              printed := printed st ++ snd t |}).
Proof.
  induction gs as [|[s rows] gs IH]; intros st Hg.
  - cbn. rewrite append_nil_r, app_nil_r. now destruct st.
  - destruct Hg as (Hne & Hprev & Hrows & Hs & Hg).
    unfold rows_of. cbn [map concat snd]. fold (rows_of gs).
    rewrite generate_html_rows_app.
    rewrite (generate_html_rows_new_run config m s rows st) by assumption.
    cbn [groups_markup last_session].
    destruct (segments config m rows) as [q|e]; [|reflexivity].
    cbn [bind]. rewrite IH by exact Hg.
    cbn [html_content previous_session printed].
    assert (Ht : str_truth s = true).
    { unfold str_truth. apply negb_true_iff. now apply String.eqb_neq. }
    rewrite Ht.
    destruct (groups_markup config m true gs) as [t|e]; [|reflexivity].
    cbn [bind fst snd]. f_equal. f_equal; [|now rewrite app_assoc].
    now rewrite !append_assoc.
Qed.

Lemma last_session_nonempty (gs : list (string * list Row)) :
  forall prev : string,
    well_grouped prev gs -> gs <> [] -> last_session prev gs <> "".
Proof.
  induction gs as [|[s rows] gs IH]; intros prev Hg Hne; [congruence|].
  destruct Hg as (Hs & _ & _ & _ & Hg). cbn [last_session].
  destruct gs as [|g gs]; [exact Hs|].
  apply IH; [exact Hg | discriminate].
Qed.

(** X6.  Session grouping for any number of runs.  When the rows come in runs
    of sessions that are not empty, each different from the one before,
    [generate_html] gives the header, then one table for each run in the
    order of the rows (also when a session comes back later), each closed
    when the next one opens, and the last one closed after the loop; an
    exception of a formatter comes out as it is. *)
Theorem generate_html_groups (config : Config) (m : Maps)
  (gs : list (string * list Row))
  (Hg : well_grouped "" gs) :
  generate_html (rows_of gs) config m
  = bind (groups_markup config m false gs) (fun t =>
      Ok (html_header config ++ fst t
          ++ match gs with
             | [] => ""
             | _ :: _ => "</tbody></table>"
             end)).
Proof.
  unfold generate_html, generate_html_state.
  rewrite (generate_html_rows_groups config m gs (initial_gen_state config)) by exact Hg.
  cbn [initial_gen_state previous_session html_content printed].
  change (str_truth "") with false.
  destruct gs as [|g gs].
  - cbn. now rewrite !append_nil_r.
  - assert (Hl : str_truth (last_session "" (g :: gs)) = true).
    { unfold str_truth. apply negb_true_iff, String.eqb_neq.
      apply last_session_nonempty; [exact Hg | discriminate]. }
    destruct (groups_markup config m false (g :: gs)) as [t|e]; [|reflexivity].
    cbn [bind previous_session html_content].
    rewrite Hl. cbn [html_content]. now rewrite append_assoc.
Qed.

Lemma generate_html_groups_witness :
  generate_html
    [ example_row (CStr "A") (CStr "Law") (CStr "1850") (CStr "Chap. 1");
      example_row (CStr "B") (CStr "Law") (CStr "1851") (CStr "Chap. 2");
      example_row (CStr "A") (CStr "Law") (CStr "1852") (CStr "Chap. 3") ]
    example_config example_maps
  = Ok (html_header example_config
        ++ (open_table "A"
            ++ table_row (td (anchor "pub.pdf#page=7" "Chap. 1")) (td "Public")
                 (td "T") (td "1850")
            ++ close_table ++ open_table "B"
            ++ table_row (td (anchor "pub.pdf#page=7" "Chap. 2")) (td "Public")
                 (td "T") (td "1851")
            ++ close_table ++ open_table "A"
            ++ table_row (td (anchor "pub.pdf#page=7" "Chap. 3")) (td "Public")
                 (td "T") (td "1852"))
        ++ "</tbody></table>").
Proof.
  apply (generate_html_groups example_config example_maps
           [ ("A", [example_row (CStr "A") (CStr "Law") (CStr "1850") (CStr "Chap. 1")]);
             ("B", [example_row (CStr "B") (CStr "Law") (CStr "1851") (CStr "Chap. 2")]);
             ("A", [example_row (CStr "A") (CStr "Law") (CStr "1852") (CStr "Chap. 3")]) ]).
  cbn [well_grouped].
  repeat split; try discriminate; repeat constructor.
Defined.

(** ** More of the audit *)


Lemma audited_refl (r : Row) : audited r r.
Proof. now left. Qed.

Lemma audited_trans (r1 r2 r3 : Row) : audited r1 r2 -> audited r2 r3 -> audited r1 r3.
Proof.
  intros [->|[v ->]] [->|[w ->]]; unfold audited; eauto.
Qed.

Lemma audit_frame_refl (last : Z) (d : list Row) : audit_frame last d d.
Proof. split; [reflexivity|]. intros j r H. exists r. auto using audited_refl. Qed.

Lemma audit_frame_trans (last : Z) (d1 d2 d3 : list Row) :
  audit_frame last d1 d2 -> audit_frame last d2 d3 -> audit_frame last d1 d3.
Proof.
  intros [L1 F1] [L2 F2]. split; [congruence|].
  intros j r H. destruct (F1 j r H) as (r2 & H2 & A2 & E2).
  destruct (F2 j r2 H2) as (r3 & H3 & A3 & E3).
  exists r3. split; [exact H3|]. split; [eapply audited_trans; eauto|].
  intros Hj. rewrite (E3 Hj). now apply E2.
Qed.

Lemma audit_frame_alter (last : Z) (d : list Row) (idx : nat) (v : Z) :
  last <= Z.of_nat idx ->
  audit_frame last d (alter (set_PDF_Start (CInt v)) idx d).
Proof.
  intros Hidx. split; [apply length_alter|].
  intros j r H. destruct (Nat.eq_dec idx j) as [->|Hne].
  - exists (set_PDF_Start (CInt v) r).
    rewrite list_lookup_alter_eq, H. split; [reflexivity|].
    split; [right; eauto | lia].
  - exists r. rewrite list_lookup_alter_ne by exact Hne.
    auto using audited_refl.
Qed.

Lemma audit_rows_frame (config : Config) (last : Z) (rows : list (nat * Row)) :
  forall (stdin : list string) (st : St),
    audit_frame last (df st) (df (snd (audit_rows config last rows stdin st))).
Proof.
  induction rows as [|[idx row] rows IH]; intros stdin st.
  - apply audit_frame_refl.
  - cbn [audit_rows].
    destruct (Z.ltb_spec (Z.of_nat idx) last) as [Hlt|Hge]; [apply IH|].
    pose proof (while_True_post_holds config idx row stdin st) as Hpost.
    unfold while_True_post in Hpost.
    destruct (while_True config idx row stdin st) as [[[[|b]|e] s1] st1];
      destruct Hpost as [_ Hpost].
    + destruct Hpost as [_ Hdf].
      apply (audit_frame_trans last _ (df st1)); [|apply IH].
      destruct Hdf as [->|[v ->]]; [apply audit_frame_refl | now apply audit_frame_alter].
    + destruct Hpost as (_ & _ & Hdf). cbn [snd]. rewrite Hdf. apply audit_frame_refl.
    + destruct Hpost as (_ & _ & Hdf). cbn [snd]. rewrite Hdf. apply audit_frame_refl.
Qed.

(** X8.  The audit and the data frame, whatever is typed and however the audit
    ends.  The rows stay as many; a row is as before or has its PDF Start
    set to an integer, its six other fields as before; and a row below
    the checkpoint is as before. *)
Theorem audit_process_frame
  (config : Config) (last : Z) (stdin : list string) (st : St) :
  let d' := df (snd (audit_process config last stdin st)) in
  length d' = length (df st)
  /\ forall (j : nat) (r : Row),
       df st !! j = Some r ->
       exists r' : Row,
         d' !! j = Some r'
         /\ (r' = r \/ exists v : Z, r' = set_PDF_Start (CInt v) r)
         /\ Session r' = Session r /\ Type_ r' = Type_ r
         /\ Public_Private r' = Public_Private r /\ Title r' = Title r
         /\ Date r' = Date r /\ Number_Chapter r' = Number_Chapter r
         /\ (Z.of_nat j < last -> r' = r).
Proof.
  cbv zeta. unfold audit_process.
  destruct (audit_rows_frame config last (iterrows (df st)) stdin st) as [Hl Hf].
  split; [exact Hl|].
  intros j r H. destruct (Hf j r H) as (r' & H' & A & E).
  exists r'. split; [exact H'|]. split; [exact A|].
  destruct A as [->|[v ->]]; repeat split; auto.
Qed.

Lemma audit_rows_all_below (config : Config) (last : Z) (rows : list (nat * Row))
  (stdin : list string) (st : St) :
  Forall (fun p => Z.of_nat (fst p) < last) rows ->
  audit_rows config last rows stdin st = (Ok true, stdin, st).
Proof.
  induction 1 as [|[idx row] rows Hlt _ IH]; [reflexivity|].
  cbn [audit_rows]. cbn [fst] in Hlt.
  destruct (Z.ltb_spec (Z.of_nat idx) last); [exact IH | lia].
Qed.

(** X9.  A checkpoint at or beyond the number of rows (a stale one, of a
    longer workbook of the same name) makes the audit complete at once:
    no row is asked, no input is read, nothing changes, and the result is
    [True]. *)
Theorem audit_process_checkpoint_beyond
  (config : Config) (last : Z) (stdin : list string) (st : St)
  (H : Z.of_nat (length (df st)) <= last) :
  audit_process config last stdin st = (Ok true, stdin, st).
Proof.
  unfold audit_process. apply audit_rows_all_below.
  apply Forall_forall. intros [k row] Hin.
  apply iterrows_from_elem in Hin. cbn [fst]. lia.
Qed.

Lemma audit_rows_nonpositive (config : Config) (last : Z) (rows : list (nat * Row)) :
  last <= 0 ->
  forall (stdin : list string) (st : St),
    audit_rows config last rows stdin st = audit_rows config 0 rows stdin st.
Proof.
  intros Hl. induction rows as [|[idx row] rows IH]; intros stdin st; [reflexivity|].
  cbn [audit_rows].
  destruct (Z.ltb_spec (Z.of_nat idx) last); [lia|].
  destruct (Z.ltb_spec (Z.of_nat idx) 0); [lia|].
  destruct (while_True config idx row stdin st) as [[[[|b]|e] s1] st1]; auto.
Qed.

(** X10.  A negative checkpoint is a checkpoint of 0: the audit starts from
    the first row. *)
Theorem audit_process_checkpoint_negative
  (config : Config) (last : Z) (stdin : list string) (st : St)
  (H : last <= 0) :
  audit_process config last stdin st = audit_process config 0 stdin st.
Proof. unfold audit_process. now apply audit_rows_nonpositive. Qed.

Lemma log_log (st : St) (es1 es2 : list event) :
  log (log st es1) es2 = log st (es1 ++ es2).
Proof. unfold log. cbn. now rewrite app_assoc. Qed.

Lemma log_nil (st : St) : log st [] = st.
Proof. unfold log. rewrite app_nil_r. now destruct st. Qed.

Lemma audit_rows_all_confirmed (config : Config) (last : Z) (d : list Row) :
  forall (i : nat) (ys rest : list string) (st : St),
    last <= Z.of_nat i ->
    Forall (fun u => lower u = "y") ys ->
    length ys = length d ->
    audit_rows config last (iterrows_from i d) (ys ++ rest) st
    = (Ok true, rest, log st (prompts d)).
Proof.
  induction d as [|row d IH]; intros i ys rest st Hi Hy Hlen.
  - destruct ys; [|discriminate]. cbn. now rewrite log_nil.
  - destruct ys as [|u ys]; [discriminate|].
    inversion Hy as [|u' ys' Hu Hys]; subst.
    cbn [iterrows_from audit_rows].
    destruct (Z.ltb_spec (Z.of_nat i) last); [lia|].
    cbn [app while_True]. rewrite Hu. cbn [String.eqb Ascii.eqb Bool.eqb].
    rewrite IH; [|lia|assumption|now injection Hlen].
    rewrite log_log. reflexivity.
Qed.

(** X11.  The answer [y], in either case, to every row from the checkpoint on
    completes the audit: it returns [True], each of these rows has been
    asked once and in order, the lines that follow are not read, and the
    data frame and the files are as before. *)
Theorem audit_process_all_confirmed
  (config : Config) (last : nat) (ys rest : list string) (st : St)
  (Hy : Forall (fun u => lower u = "y") ys)
  (Hlen : length ys = (length (df st) - last)%nat) :
  audit_process config (Z.of_nat last) (ys ++ rest) st
  = (Ok true, rest, log st (prompts (drop last (df st)))).
Proof.
  unfold audit_process, iterrows.
  rewrite audit_rows_skip by lia. rewrite Nat.sub_0_r.
  apply audit_rows_all_confirmed; [lia | assumption |].
  now rewrite length_drop.
Qed.

(** ** More of [get_last_audited_row] *)

Lemma lstrip_all_space (ws s : string) :
  all_space ws = true -> lstrip py_isspace (ws ++ s) = lstrip py_isspace s.
Proof.
  induction ws as [|c ws IH]; intros H; [reflexivity|].
  simpl in H. apply andb_true_iff in H. destruct H as [Hc Hs].
  rewrite append_cons. cbn [lstrip]. rewrite Hc. now apply IH.
Qed.

Lemma rstrip_all_space (ws : string) :
  all_space ws = true -> rstrip py_isspace ws = "".
Proof.
  induction ws as [|c ws IH]; intros H; [reflexivity|].
  simpl in H. apply andb_true_iff in H. destruct H as [Hc Hs].
  cbn [rstrip]. rewrite (IH Hs). now rewrite Hc.
Qed.

Lemma rstrip_digits_space (d ws : string) :
  all_digits d = true -> all_space ws = true ->
  rstrip py_isspace (d ++ ws) = d.
Proof.
  intros Hd Hws. induction d as [|c d IH].
  - rewrite append_nil_l. now apply rstrip_all_space.
  - simpl in Hd. apply andb_true_iff in Hd. destruct Hd as [Hc Hd].
    rewrite append_cons. cbn [rstrip]. rewrite (IH Hd).
    destruct (digit_not_space c Hc) as [-> _]. now destruct d.
Qed.

(** X12.  The checkpoint is read back through white space: a checkpoint file
    that holds the decimal text of a row index, with any white space or
    line ends before and after it, gives that index. *)
Theorem get_last_audited_row_padded
  (config : Config) (fs : gmap string file) (file_name ws1 ws2 : string) (k : Z)
  (Hk : 0 <= k)
  (Hws1 : all_space ws1 = true)
  (Hws2 : all_space ws2 = true)
  (Hfile : fs !! checkpoint_path config file_name
           = Some (FText (ws1 ++ str_of_int k ++ ws2))) :
  get_last_audited_row config fs file_name = Ok k.
Proof.
  unfold get_last_audited_row. rewrite Hfile.
  destruct (str_of_int_nonneg k Hk) as (Hd & Hne & Hv).
  assert (Hstrip : strip (ws1 ++ str_of_int k ++ ws2) = str_of_int k).
  { unfold strip. rewrite lstrip_all_space by assumption.
    destruct (str_of_int k) as [|c d] eqn:E; [congruence|].
    pose proof Hd as Hd'. simpl in Hd'. apply andb_true_iff in Hd'. destruct Hd' as [Hc _].
    rewrite append_cons. cbn [lstrip]. destruct (digit_not_space c Hc) as [-> _].
    rewrite <- append_cons. now apply rstrip_digits_space. }
  rewrite Hstrip. apply String.eqb_neq in Hne. rewrite Hne.
  rewrite int_of_str_digits by (assumption || now apply String.eqb_neq).
  now rewrite Hv.
Qed.

(** ** The tables of names *)

Lemma get_default_idempotent (t : gmap string string) :
  stable_table t <-> forall x : string, default (default x (t !! x)) (t !! default x (t !! x)) = default x (t !! x).
Proof.
  split.
  - intros Hs x. destruct (t !! x) as [v|] eqn:E; cbn.
    + destruct (Hs x v E) as [-> | ->]; reflexivity.
    + now rewrite E.
  - intros Hi k v E. specialize (Hi k). rewrite E in Hi. cbn in Hi.
    destruct (t !! v) as [w|]; [|now left].
    cbn in Hi. right. now subst.
Qed.

(** X13.  Standardizing a header or a statute type twice gives what
    standardizing it once gives, for every text, exactly when the table
    is stable: none of its values is a key that stands for another text.
    A text that is no key is returned as it is. *)
Theorem map_names_idempotent (m : Maps) :
  (stable_table (header_mappings m)
   <-> forall header : string,
         map_headers m (map_headers m header) = map_headers m header)
  /\ (stable_table (statute_mappings m)
      <-> forall statute_type : string,
            map_statute_type m (map_statute_type m statute_type)
            = map_statute_type m statute_type)
  /\ (forall header : string,
        header_mappings m !! header = None -> map_headers m header = header)
  /\ (forall statute_type : string,
        statute_mappings m !! statute_type = None ->
        map_statute_type m statute_type = statute_type).
Proof.
  unfold map_headers, map_statute_type.
  split; [apply get_default_idempotent|].
  split; [apply get_default_idempotent|].
  split; intros x ->; reflexivity.
Qed.

(** ** [load_excel_file] *)

(** X14.  [load_excel_file] on every state of the files.  When the path holds a
    workbook, it returns the data rows without the first [START_ROW - 2]
    of them, each with its type standardized when it is a text and its
    other fields as in the workbook, and it prints nothing; otherwise it
    prints one line and leaves with [exit()].  It writes no file. *)
Theorem load_excel_file_outcome
  (config : Config) (m : Maps) (file_name : string) (st : St) :
  match files st !! path_join (EXCEL_DIR config) file_name with
  | Some (FSheet rows) =>
      exists d : list Row,
        load_excel_file config m file_name st = (Ok d, st)
        /\ length d = (length rows - Z.to_nat (START_ROW config - 2))%nat
        /\ forall (j : nat) (r' : Row),
             d !! j = Some r' ->
             exists r : Row,
               rows !! (Z.to_nat (START_ROW config - 2) + j)%nat = Some r
               /\ same_but_type r r'
               /\ Type_ r' = match Type_ r with
                             | CStr s => CStr (map_statute_type m s)
                             | c => c
                             end
  | _ =>
      exists text : string,
        load_excel_file config m file_name st = (Raise SystemExit, log st [Printed text])
  end.
Proof.
  unfold load_excel_file, read_excel.
  destruct (files st !! path_join (EXCEL_DIR config) file_name) as [[text|rows]|];
    [eexists; reflexivity | | eexists; reflexivity].
  eexists. split; [reflexivity|].
  split; [now rewrite length_map, length_drop|].
  intros j r' H. rewrite list_lookup_fmap, lookup_drop in H.
  destruct (rows !! (Z.to_nat (START_ROW config - 2) + j)%nat) as [r|]; [|discriminate].
  injection H as <-. exists r. split; [reflexivity|].
  split; [unfold same_but_type, map_row_type; cbn; repeat split | reflexivity].
Qed.

(** ** More of [main] *)

Lemma write_html_ok (config : Config) (m : Maps) (st : St) :
  fst (write_html config m st) = Ok tt ->
  exists h : string,
    files (snd (write_html config m st))
    = <[html_output_path config := FText h]> (files st).
Proof.
  unfold write_html. fold (html_output_path config).
  destruct (generate_html (df st) config m) as [h|e]; [|discriminate].
  intros _. exists h. reflexivity.
Qed.

Lemma write_html_raise (config : Config) (m : Maps) (st : St) (e : exn) :
  fst (write_html config m st) = Raise e -> snd (write_html config m st) = st.
Proof.
  unfold write_html.
  destruct (generate_html (df st) config m) as [h|e']; [discriminate | reflexivity].
Qed.

Lemma main_refuses_both_exist
  (config : Config) (m : Maps) (stdin : list string) (st : St) :
  is_Some (files st !! audited_file_path config) ->
  is_Some (files st !! html_output_path config) ->
  main (Some config) m stdin st
  = (Raise SystemExit,
     log st
       [ Printed (nl ++ "Audited file '" ++ audited_file_path config
                  ++ "' already exists." ++ nl);
         Printed (nl ++ "HTML output '" ++ html_output_path config
                  ++ "' already exists. If you wish to regenerate, please delete or backup the existing file."
                  ++ nl) ])
  /\ files (snd (main (Some config) m stdin st)) = files st.
Proof.
  intros [a Ha] [h Hh]. unfold main.
  fold (audited_file_path config) (html_output_path config).
  rewrite Ha. cbn [files log]. rewrite Hh.
  unfold log. cbn [df files console]. rewrite <- app_assoc. split; reflexivity.
Qed.

Lemma main_ok_files (config : Config) (m : Maps) (stdin : list string) (st : St) :
  fst (main (Some config) m stdin st) = Ok tt ->
  is_Some (files (snd (main (Some config) m stdin st)) !! audited_file_path config)
  /\ is_Some (files (snd (main (Some config) m stdin st)) !! html_output_path config).
Proof.
  unfold main. fold (audited_file_path config) (html_output_path config).
  destruct (files st !! audited_file_path config) as [a|] eqn:Ha.
  - cbn [files log].
    destruct (files st !! html_output_path config) as [h|] eqn:Hh; [discriminate|].
    destruct (read_excel (files st) (audited_file_path config)) as [rows|e]; [|discriminate].
    intros Hok. destruct (write_html_ok _ _ _ Hok) as [h ->].
    cbn [files set_df log]. split; apply lookup_insert_is_Some.
    + destruct (decide (html_output_path config = audited_file_path config)); [now left|].
      right. split; [assumption | now rewrite Ha].
    + now left.
  - destruct (load_excel_file config m (EXCEL_FILE config) st) as [[rows|e] st1]; [|discriminate].
    cbn [files set_df].
    destruct (get_last_audited_row config (files st1) (EXCEL_FILE config)) as [last|e];
      [|discriminate].
    destruct (audit_process config last stdin (set_df st1 rows)) as [[[[|]|e] s2] st2];
      [|discriminate|discriminate].
    intros Hok. destruct (write_html_ok _ _ _ Hok) as [h ->].
    cbn [files log write_file]. split; apply lookup_insert_is_Some.
    + destruct (decide (html_output_path config = audited_file_path config)); [now left|].
      right. split; [assumption|]. rewrite lookup_insert_eq. eauto.
    + now left.
Qed.

(** X15.  A run that went through leaves a state in which the next run works
    on nothing: after [main] has returned, the audited file and the HTML
    output are both there, and a second [main] prints that the audited
    file exists, prints that the HTML output exists and is to be deleted
    or backed up, and leaves with [sys.exit()]: it asks nothing and
    writes no file. *)
Theorem main_rerun_refuses
  (config : Config) (m : Maps) (stdin stdin2 : list string) (st : St)
  (Hok : fst (main (Some config) m stdin st) = Ok tt) :
  let st' := snd (main (Some config) m stdin st) in
  is_Some (files st' !! audited_file_path config)
  /\ is_Some (files st' !! html_output_path config)
  /\ main (Some config) m stdin2 st'
     = (Raise SystemExit,
        log st'
          [ Printed (nl ++ "Audited file '" ++ audited_file_path config
                     ++ "' already exists." ++ nl);
            Printed (nl ++ "HTML output '" ++ html_output_path config
                     ++ "' already exists. If you wish to regenerate, please delete or backup the existing file."
                     ++ nl) ])
  /\ files (snd (main (Some config) m stdin2 st')) = files st'.
Proof.
  cbv zeta. destruct (main_ok_files config m stdin st Hok) as [Ha Hh].
  split; [exact Ha|]. split; [exact Hh|].
  destruct (main_refuses_both_exist config m stdin2 _ Ha Hh) as [Hmain Hfiles].
  split; [exact Hmain | exact Hfiles].
Qed.

Lemma load_excel_file_files (config : Config) (m : Maps) (file_name : string) (st : St) :
  files (snd (load_excel_file config m file_name st)) = files st.
Proof.
  unfold load_excel_file.
  destruct (read_excel (files st) _) as [rows|[]]; reflexivity.
Qed.

(** X16.  The HTML output is written only by a run that goes through.  When
    the path that pathlib makes for the HTML output is not the one it
    makes for the audited file, for the in-process file or for the
    checkpoint, a [main] that ends with an exception (a refusal, a
    workbook that cannot be read, an audit that is interrupted, runs out
    of input or fails to store a correction, a formatter that raises)
    leaves what is at the path of the HTML output as it was.  Files are
    told apart by their paths. *)
Theorem main_error_keeps_html
  (config : Config) (m : Maps) (stdin : list string) (st : St) (e : exn)
  (Haud : html_output_path config <> audited_file_path config)
  (Hinp : html_output_path config <> in_process_file_path config)
  (Hckp : html_output_path config <> checkpoint_path config (EXCEL_FILE config))
  (Hraise : fst (main (Some config) m stdin st) = Raise e) :
  files (snd (main (Some config) m stdin st)) !! html_output_path config
  = files st !! html_output_path config.
Proof.
  revert Hraise. unfold main.
  fold (audited_file_path config) (html_output_path config) (in_process_file_path config).
  destruct (files st !! audited_file_path config) as [a|] eqn:Ha.
  - cbn [files log].
    destruct (files st !! html_output_path config) as [h|] eqn:Hh;
      [intros _; exact Hh|].
    destruct (read_excel (files st) (audited_file_path config)) as [rows|e'];
      [|intros _; exact Hh].
    intros Hr. rewrite (write_html_raise _ _ _ _ Hr). exact Hh.
  - pose proof (load_excel_file_files config m (EXCEL_FILE config) st) as Hl.
    destruct (load_excel_file config m (EXCEL_FILE config) st) as [[rows|e'] st1];
      cbn [snd] in Hl; [|intros _; cbn [snd]; now rewrite Hl].
    cbn [files set_df].
    destruct (get_last_audited_row config (files st1) (EXCEL_FILE config)) as [last|e'];
      [|intros _; cbn [snd files set_df]; now rewrite Hl].
    pose proof (audit_rows_files config last (iterrows (df (set_df st1 rows))) stdin
                  (set_df st1 rows)) as Hf.
    unfold audit_process.
    destruct (audit_rows config last (iterrows (df (set_df st1 rows))) stdin (set_df st1 rows))
      as [[[[|]|e'] s2] st2]; cbn [files set_df] in Hf.
    + intros Hr. rewrite (write_html_raise _ _ _ _ Hr).
      cbn [files log write_file]. rewrite lookup_insert_ne by congruence.
      now rewrite Hf, Hl.
    + intros _. cbn [snd files log write_file].
      destruct Hf as (k & row & _ & _ & ->).
      rewrite !lookup_insert_ne by congruence. now rewrite Hl.
    + intros _. cbn [snd]. destruct Hf as [-> _]. now rewrite Hl.
Qed.

Lemma write_html_files (config : Config) (m : Maps) (st : St) (p : string) :
  p <> html_output_path config ->
  files (snd (write_html config m st)) !! p = files st !! p.
Proof.
  intros Hp. unfold write_html. fold (html_output_path config).
  destruct (generate_html (df st) config m) as [h|e]; [|reflexivity].
  cbn [snd files log write_file]. now rewrite lookup_insert_ne.
Qed.

(** X17.  [main] writes at four paths at most, each as pathlib makes it
    from the configuration: the audited file, the in-process file, the
    checkpoint and the HTML output.  What is at any other path (the
    workbook that is audited, when it is none of the four) is as before,
    however the run ends.  Files are told apart by their paths. *)
Theorem main_writes_only_outputs
  (config : Config) (m : Maps) (stdin : list string) (st : St) (p : string)
  (Haud : p <> audited_file_path config)
  (Hinp : p <> in_process_file_path config)
  (Hckp : p <> checkpoint_path config (EXCEL_FILE config))
  (Hhtml : p <> html_output_path config) :
  files (snd (main (Some config) m stdin st)) !! p = files st !! p.
Proof.
  unfold main.
  fold (audited_file_path config) (html_output_path config) (in_process_file_path config).
  destruct (files st !! audited_file_path config) as [a|] eqn:Ha.
  - cbn [files log].
    destruct (files st !! html_output_path config) as [h|] eqn:Hh; [reflexivity|].
    destruct (read_excel (files st) (audited_file_path config)) as [rows|e']; [|reflexivity].
    now rewrite write_html_files.
  - pose proof (load_excel_file_files config m (EXCEL_FILE config) st) as Hl.
    destruct (load_excel_file config m (EXCEL_FILE config) st) as [[rows|e'] st1];
      cbn [snd] in Hl; [|cbn [snd]; now rewrite Hl].
    cbn [files set_df].
    destruct (get_last_audited_row config (files st1) (EXCEL_FILE config)) as [last|e'];
      [|cbn [snd files set_df]; now rewrite Hl].
    pose proof (audit_rows_files config last (iterrows (df (set_df st1 rows))) stdin
                  (set_df st1 rows)) as Hf.
    unfold audit_process.
    destruct (audit_rows config last (iterrows (df (set_df st1 rows))) stdin (set_df st1 rows))
      as [[[[|]|e'] s2] st2]; cbn [files set_df] in Hf.
    + rewrite write_html_files by assumption.
      cbn [files log write_file]. rewrite lookup_insert_ne by congruence.
      now rewrite Hf, Hl.
    + cbn [snd files log write_file].
      destruct Hf as (k & row & _ & _ & ->).
      rewrite !lookup_insert_ne by congruence. now rewrite Hl.
    + cbn [snd]. destruct Hf as [-> _]. now rewrite Hl.
Qed.

End Run.

(** ** The audit and [main] on the examples *)

(** The functions of the script with the paths of the examples, a PDF
    Start column of 64-bit integers and the message of pandas for a file
    that is no workbook. *)
Section Examples.

Local Abbreviation get_last_audited_row :=
  (get_last_audited_row example_path_join example_path_stem).
Local Abbreviation while_True := (while_True example_path_join example_path_stem at_set_int64).
Local Abbreviation audit_process :=
  (audit_process example_path_join example_path_stem at_set_int64).
Local Abbreviation html_output_path := (html_output_path example_path_join).
Local Abbreviation main :=
  (main example_path_join example_path_stem at_set_int64 example_read_excel_message).

Lemma get_last_audited_row_fresh_witness :
  get_last_audited_row example_config
    {[ "tmp/audit-checkpoint-LoC_31.txt" := FText (" " ++ nl) ]} "LoC_31.xlsx" = Ok 0.
Proof.
  apply (get_last_audited_row_fresh example_path_join example_path_stem at_set_int64
           example_config
           {[ "tmp/audit-checkpoint-LoC_31.txt" := FText (" " ++ nl) ]} "LoC_31.xlsx").
  right. exists (" " ++ nl). split; reflexivity.
Defined.


Lemma audit_correction_frame_witness :
  exists st' : St,
    while_True example_config 1
      (example_row (CStr "A") (CStr "Law") (CStr "1850") (CStr "Chap. 2"))
      ["N"; " 1_2 "; "y"] example_st
    = (Ok Break, ["y"], st')
    /\ df st' !! 1%nat = Some
         {| Session := CStr "A"; Type_ := CStr "Law"; Public_Private := Some (CStr "Public");
            Title := CStr "T"; Date := CStr "1850"; Number_Chapter := CStr "Chap. 2";
            PDF_Start := CInt 12 |}
    /\ df st' !! 0%nat = df example_st !! 0%nat
    /\ df st' !! 2%nat = df example_st !! 2%nat.
Proof.
  pose proof (audit_correction_frame example_path_join example_path_stem at_set_int64
                example_config 1
                (example_row (CStr "A") (CStr "Law") (CStr "1850") (CStr "Chap. 2"))
                "N" " 1_2 " 12 ["y"] example_st) as H.
  cbv zeta in H.
  change (at_set_int64 (df example_st) 1 12) with (@Ok unit tt) in H.
  cbv beta iota in H.
  destruct H as (st' & Hrun & _ & _ & Hother & Hrow).
  - reflexivity.
  - discriminate.
  - vm_compute. lia.
  - reflexivity.
  - exists st'. split; [exact Hrun|].
    split; [|split; apply Hother; lia].
    destruct (Hrow _ eq_refl) as (r' & Hr' & Hp & Hs & Ht & Hpp & Hti & Hd & Hnc).
    rewrite Hr'. destruct r'. cbn in *. now subst.
Defined.

(** C8, as the claim words it, fails for an integer that the column does
    not take.  [int] reads the text as [10^20]; the store into a column
    of 64-bit integers raises [ValueError], which the [except] of the
    loop catches: the message of an invalid input is printed and the row
    is asked again.  The answer [y] then ends the row, and the data frame
    is as it was. *)
Lemma audit_correction_not_stored_counterexample :
  let row := example_row (CStr "A") (CStr "Law") (CStr "1850") (CStr "Chap. 2") in
  int_of_str "100000000000000000000" = Ok (10 ^ 20)
  /\ exists st' : St,
       while_True example_config 1 row ["n"; "100000000000000000000"; "y"] example_st
       = (Ok Break, [], st')
       /\ df st' = df example_st
       /\ console st'
          = [ Cleared; Prompted (confirm_prompt row); Prompted (correction_prompt row);
              Printed "Invalid input. Please enter a valid PDF Start value (an integer).";
              Cleared; Prompted (confirm_prompt row) ].
Proof.
  intros row. split; [reflexivity|].
  eexists. split; [reflexivity|]. split; reflexivity.
Qed.

Lemma main_refuses_existing_html_witness :
  fst (main (Some example_config) example_maps []
         {| df := [];
            files := {[ "excel/audited-LoC_31.xlsx" := FSheet example_df;
                        "html/31.html" := FText "old" ]};
            console := [] |})
  = Raise SystemExit.
Proof.
  destruct (main_refuses_existing_html example_path_join example_path_stem at_set_int64
              example_read_excel_message example_config example_maps []
              {| df := [];
                 files := {[ "excel/audited-LoC_31.xlsx" := FSheet example_df;
                             "html/31.html" := FText "old" ]};
                 console := [] |}
              (FSheet example_df) (FText "old")) as [Hmain _].
  - reflexivity.
  - reflexivity.
  - rewrite Hmain. reflexivity.
Defined.

(** C9, as the claim words it, fails: with no audited file, the audit of
    the one row of the workbook is gone through with the answer [y], the
    run reaches the generation of the HTML, and the file that was at the
    path of the HTML output is written over. *)
Lemma main_overwrites_html_counterexample :
  let st := {| df := [];
               files := {[ "excel/LoC_31.xlsx" :=
                             FSheet [ example_row (CStr "A") (CStr "Law") (CStr "1850")
                                        (CStr "Chap. 1") ];
                           "html/31.html" := FText "old" ]};
               console := [] |} in
  files st !! html_output_path example_config = Some (FText "old")
  /\ fst (main (Some example_config) example_maps ["y"] st) = Ok tt
  /\ files (snd (main (Some example_config) example_maps ["y"] st))
       !! html_output_path example_config
     = Some (FText
         (html_header example_config ++ open_table "A"
          ++ table_row (td (anchor "pub.pdf#page=7" "Chap. 1")) (td "Public")
               (td "T") (td "1850")
          ++ "</tbody></table>"))
  /\ files (snd (main (Some example_config) example_maps ["y"] st))
       !! html_output_path example_config
     <> files st !! html_output_path example_config.
Proof.
  repeat split; try (vm_compute; reflexivity).
  vm_compute. discriminate.
Qed.

Lemma audit_process_checkpoint_beyond_witness :
  audit_process example_config 3 ["n"; "5"] example_st = (Ok true, ["n"; "5"], example_st).
Proof.
  apply (audit_process_checkpoint_beyond example_path_join example_path_stem at_set_int64
           example_config 3 ["n"; "5"] example_st).
  vm_compute. discriminate.
Defined.

Lemma audit_process_checkpoint_negative_witness :
  audit_process example_config (-4) ["exit"] example_st
  = audit_process example_config 0 ["exit"] example_st.
Proof.
  apply (audit_process_checkpoint_negative example_path_join example_path_stem at_set_int64
           example_config (-4) ["exit"] example_st).
  lia.
Defined.

Lemma audit_process_all_confirmed_witness :
  audit_process example_config 1 (["Y"; "y"] ++ ["left"]) example_st
  = (Ok true, ["left"], log example_st (prompts (drop 1 (df example_st)))).
Proof.
  apply (audit_process_all_confirmed example_path_join example_path_stem at_set_int64
           example_config 1 ["Y"; "y"] ["left"] example_st).
  - repeat constructor.
  - reflexivity.
Defined.

Lemma get_last_audited_row_padded_witness :
  get_last_audited_row example_config
    {[ "tmp/audit-checkpoint-LoC_31.txt" := FText (" " ++ "41" ++ nl) ]} "LoC_31.xlsx"
  = Ok 41.
Proof.
  apply (get_last_audited_row_padded example_path_join example_path_stem example_config
           {[ "tmp/audit-checkpoint-LoC_31.txt" := FText (" " ++ "41" ++ nl) ]}
           "LoC_31.xlsx" " " nl 41);
    [lia | reflexivity | reflexivity | reflexivity].
Defined.

Lemma main_rerun_refuses_witness :
  let st := {| df := [];
               files := {[ "excel/LoC_31.xlsx" :=
                             FSheet [ example_row (CStr "A") (CStr "Law") (CStr "1850")
                                        (CStr "Chap. 1") ] ]};
               console := [] |} in
  fst (main (Some example_config) example_maps []
         (snd (main (Some example_config) example_maps ["y"] st)))
  = Raise SystemExit
  /\ files (snd (main (Some example_config) example_maps []
                   (snd (main (Some example_config) example_maps ["y"] st))))
     = files (snd (main (Some example_config) example_maps ["y"] st)).
Proof.
  intros st.
  pose proof (main_rerun_refuses example_path_join example_path_stem at_set_int64
                example_read_excel_message example_config example_maps ["y"] [] st
                eq_refl) as H.
  cbv zeta in H. destruct H as (_ & _ & Hmain & Hfiles).
  split; [rewrite Hmain; reflexivity | exact Hfiles].
Defined.

Lemma main_error_keeps_html_witness :
  let st := {| df := [];
               files := {[ "excel/LoC_31.xlsx" :=
                             FSheet [ example_row (CStr "A") (CStr "Act") (CStr "1850") CNaN ];
                           "html/31.html" := FText "old" ]};
               console := [] |} in
  fst (main (Some example_config) example_maps ["y"] st) = Raise AttributeError
  /\ files (snd (main (Some example_config) example_maps ["y"] st)) !! "html/31.html"
     = Some (FText "old").
Proof.
  intros st. split; [reflexivity|].
  apply (main_error_keeps_html example_path_join example_path_stem at_set_int64
           example_read_excel_message example_config example_maps ["y"] st AttributeError);
    [discriminate | discriminate | discriminate | reflexivity].
Defined.

Lemma main_writes_only_outputs_witness :
  let st := {| df := [];
               files := {[ "excel/LoC_31.xlsx" :=
                             FSheet [ example_row (CStr "A") (CStr "Law") (CStr "1850")
                                        (CStr "Chap. 1") ] ]};
               console := [] |} in
  files (snd (main (Some example_config) example_maps ["n"; "9"] st)) !! "excel/LoC_31.xlsx"
  = Some (FSheet [ example_row (CStr "A") (CStr "Law") (CStr "1850") (CStr "Chap. 1") ]).
Proof.
  intros st.
  apply (main_writes_only_outputs example_path_join example_path_stem at_set_int64
           example_read_excel_message example_config example_maps ["n"; "9"] st
           "excel/LoC_31.xlsx"); discriminate.
Defined.

End Examples.
